(** * skrf.networkSet: NetworkSet, a validated collection of n-port Networks

    A shallow embedding of [skrf/networkSet.py].  The module is glue code over
    collaborators it imports ([network.Network], [numpy], [zipfile]); those are
    kept abstract behind the [Collaborator] interface, and the code of the
    module itself (validation, the dynamically generated class members, the
    reduction helper [func_on_networks], the operators, the element-wise
    methods, the uncertainty triplet) is transcribed function by function.

    Python exceptions are values of [exn]; code that can raise returns a
    [result].  The only mutable state shared between calls is the namespace of
    the class [NetworkSet], which [__init__] extends with [setattr]; it is
    threaded explicitly through the monad [M]. *)

From Stdlib Require Import ZArith List String Bool Reals Lia Lra.
From stdpp Require Import base option list gmap sets strings.

Set Default Proof Using "Type".
Set Warnings "-register-all".
Local Open Scope string_scope.
Local Open Scope Z_scope.

(** ** Exceptions and results *)

Inductive exn : Type :=
| TypeError (msg : string)
| ValueError (msg : string)
| AttributeError (attr : string)
| IndexError
| CollaboratorError (msg : string).

Inductive result (A : Type) : Type :=
| Ok (a : A)
| Raise (e : exn).
Arguments Ok {A} a.
Arguments Raise {A} e.

Definition bindR {A B} (c : result A) (k : A -> result B) : result B :=
  match c with
  | Ok a => k a
  | Raise e => Raise e
  end.

Notation "x <~ c ;; k" := (bindR c (fun x => k))
  (at level 100, c at next level, right associativity).

(** A list comprehension [[f(x) for x in l]]: elements are evaluated from left
    to right and the first exception aborts the comprehension. *)
Fixpoint mapR {A B} (f : A -> result B) (l : list A) : result (list B) :=
  match l with
  | [] => Ok []
  | x :: l' => y <~ f x ;; ys <~ mapR f l' ;; Ok (y :: ys)
  end.

(** [l[i]] on a Python list, for a non-negative index. *)
Definition getitem {A} (l : list A) (i : nat) : result A :=
  match l !! i with
  | Some x => Ok x
  | None => Raise IndexError
  end.

(** [range(n)] *)
Definition range (n : nat) : list nat := seq 0 n.

Definition of_option {A} (o : option A) (e : exn) : result A :=
  match o with
  | Some a => Ok a
  | None => Raise e
  end.

Example getitem_demo : getitem [10; 20; 30] 1 = Ok 20 /\ getitem [10] 1 = Raise IndexError.
Proof. split; reflexivity. Qed.

(** ** Python values and the collaborators *)

Section Model.

(** The types owned by the collaborators: [skrf.frequency.Frequency], numpy
    arrays and scalars, [skrf.network.Network], any other object a caller may
    hand in, file objects and [zipfile.ZipFile]. *)
Context {Frequency Array Scalar Network Obj FileObj ZipFile : Type}.

Inductive pyval : Type :=
| PyNetwork (ntwk : Network)
| PyNetworkSet (ntwk_set : list pyval) (name : option string)
| PyList (items : list pyval)
| PyStr (s : string)
| PyNone
| PyMethod (qualname : string)
| PyObject (o : Obj).

(** An instance of [NetworkSet]: the two attributes [__init__] assigns. *)
Record NetworkSet : Type := mkNetworkSet {
  ntwk_set : list pyval;
  name : option string
}.

Definition PyOfSet (self : NetworkSet) : pyval :=
  PyNetworkSet (ntwk_set self) (name self).

Definition isinstance_Network (v : pyval) : bool :=
  match v with
  | PyNetwork _ => true
  | _ => false
  end.

Definition args : Type := list pyval.
Definition kwargs : Type := list (string * pyval).

(** What the module consumes from its imports.  Attribute reads that Python
    would answer with AttributeError are [None]; calls that may raise return a
    [result].  A stacked array [npy.array([a_0, ..., a_n])] is represented by
    the list of its slices along the new leading axis, and a reduction
    [func(data_matrix, axis=0)] by a function of that list. *)
Class Collaborator : Type := {
  (* Frequency.__eq__ *)
  Frequency_eq : Frequency -> Frequency -> bool;
  (* Network *)
  number_of_ports : Network -> Z;
  frequency : Network -> Frequency;
  Network_attribute : string -> Network -> option Array;
  Network_set_s : Network -> Array -> Network;
  Network_set_name : Network -> string -> Network;
  Network_copy : Network -> Network;
  Network_call : string -> Network -> args -> kwargs -> result pyval;
  Network_inv : Network -> result pyval;
  Network_open : FileObj -> result Network;
  (* objects that are not instances of Network *)
  Obj_number_of_ports : Obj -> option Z;
  Obj_frequency : Obj -> option Frequency;
  Obj_attribute : string -> Obj -> option Array;
  Obj_call : string -> Obj -> args -> kwargs -> result pyval;
  Obj_inv : Obj -> result pyval;
  (* numpy *)
  numpy_mean : list Array -> result Array;
  numpy_std : list Array -> result Array;
  numpy_times : Scalar -> Array -> Array;
  Scalar_of_int : Z -> Scalar;
  (* zipfile *)
  zipfile_ZipFile : string -> result ZipFile;
  namelist : ZipFile -> list string;
  ZipFile_open : ZipFile -> string -> result FileObj
}.

Context `{!Collaborator}.

(** *** Attribute access on the members of a collection *)

(** [ntwk.number_of_ports] *)
Definition get_number_of_ports (ntwk : pyval) : result Z :=
  match ntwk with
  | PyNetwork n => Ok (number_of_ports n)
  | PyObject o => of_option (Obj_number_of_ports o) (AttributeError "number_of_ports")
  | _ => Raise (AttributeError "number_of_ports")
  end.

(** [ntwk.frequency] *)
Definition get_frequency (ntwk : pyval) : result Frequency :=
  match ntwk with
  | PyNetwork n => Ok (frequency n)
  | PyObject o => of_option (Obj_frequency o) (AttributeError "frequency")
  | _ => Raise (AttributeError "frequency")
  end.

(** [ntwk.__getattribute__(attribute)] for an array-valued attribute *)
Definition get_attribute (attribute : string) (ntwk : pyval) : result Array :=
  match ntwk with
  | PyNetwork n => of_option (Network_attribute attribute n) (AttributeError attribute)
  | PyObject o => of_option (Obj_attribute attribute o) (AttributeError attribute)
  | _ => Raise (AttributeError attribute)
  end.

(** [ntwk.__getattribute__(method_name)] called with the given positional and
    keyword arguments.  The receivers at
    the call sites of this module are members of a collection or results of a
    reduction; a [NetworkSet], a list, a string, [None] or a bound method has
    none of the methods asked for. *)
Definition call_method (method_name : string) (ntwk : pyval) (a : args) (kw : kwargs)
  : result pyval :=
  match ntwk with
  | PyNetwork n => Network_call method_name n a kw
  | PyObject o => Obj_call method_name o a kw
  | _ => Raise (AttributeError method_name)
  end.

(** [ntwk.inv] *)
Definition get_inv (ntwk : pyval) : result pyval :=
  match ntwk with
  | PyNetwork n => Network_inv n
  | PyObject o => Obj_inv o
  | _ => Raise (AttributeError "inv")
  end.

(** A callable with a [__name__], as [npy.mean] and [npy.std]. *)
Record callable : Type := mkCallable {
  __name__ : string;
  call_axis0 : list Array -> result Array
}.

Definition npy_mean : callable := {| __name__ := "mean"; call_axis0 := numpy_mean |}.
Definition npy_std : callable := {| __name__ := "std"; call_axis0 := numpy_std |}.

(** ** The class namespace

    [__init__] binds the generated members on the class, not on the instance
    ([setattr(self.__class__, ...)]).  A [member] is one of the four closures
    the private [__add_a_*] methods build, with the variables it captured. *)

Inductive member : Type :=
| FuncOnProperty (func : callable) (network_property_name : string)
| PlotUncertainty (network_property_name : string)
| ElementWiseMethod (network_method_name : string)
| OperatorFunc (operator_name : string).

(** The names added to the class since its definition: empty when the [class]
    statement has just been executed. *)
Definition at_class_definition : gmap string member := ∅.

(** Methods and properties written in the body of the [class] statement. *)
Definition class_body_methods : list string :=
  [ "__init__"; "from_zip"; "_NetworkSet__add_a_operator"; "__str__"; "__repr__";
    "__getitem__"; "__len__"; "_NetworkSet__add_a_element_wise_method";
    "_NetworkSet__add_a_func_on_property"; "_NetworkSet__add_a_plot_uncertainty";
    "element_wise_method"; "set_wise_function"; "uncertainty_ntwk_triplet";
    "plot_uncertainty_bounds_component"; "plot_uncertainty_bounds_s_db";
    "plot_uncertainty_decomposition"; "signature" ].

Definition class_body_properties : list string := [ "mean_s_db"; "std_s_db"; "inv" ].

(** Computations that read or extend the class namespace and may raise. *)
Definition M (A : Type) : Type := gmap string member -> result A * gmap string member.

Definition retM {A} (a : A) : M A := fun cls => (Ok a, cls).
Definition raiseM {A} (e : exn) : M A := fun cls => (Raise e, cls).
Definition liftR {A} (c : result A) : M A := fun cls => (c, cls).
Definition bindM {A B} (c : M A) (k : A -> M B) : M B :=
  fun cls => match c cls with
             | (Ok a, cls') => k a cls'
             | (Raise e, cls') => (Raise e, cls')
             end.

Notation "x <- c ;; k" := (bindM c (fun x => k))
  (at level 100, c at next level, right associativity).

(** [setattr(self.__class__, name, m)] *)
Definition setattr_class (name : string) (m : member) : M unit :=
  fun cls => (Ok tt, <[name := m]> cls).

(** The class attribute bound to [name] by an earlier [setattr], if any. *)
Definition class_lookup (name : string) : M (option member) :=
  fun cls => (Ok (cls !! name), cls).

(** A [for] loop whose body is run for its effect. *)
Fixpoint forM_ {A} (l : list A) (body : A -> M unit) : M unit :=
  match l with
  | [] => retM tt
  | x :: l' => _ <- body x ;; forM_ l' body
  end.

(** ** func_on_networks *)

(** [new_ntwk.s = value] and [new_ntwk.name = value].  Both are reached only
    with a Network: [copy] below yields one, and elsewhere a read of an
    array-valued attribute of the same object precedes the assignment. *)
Definition set_s (ntwk : pyval) (value : Array) : result pyval :=
  match ntwk with
  | PyNetwork n => Ok (PyNetwork (Network_set_s n value))
  | _ => Raise (AttributeError "s")
  end.

(** [ntwk_list[0].copy()]: the deep copy of a Network.  Objects that are not
    Networks are taken to have no [copy] method. *)
Definition copy (ntwk : pyval) : result Network :=
  match ntwk with
  | PyNetwork n => Ok (Network_copy n)
  | _ => Raise (AttributeError "copy")
  end.

Definition func_on_networks (ntwk_list : list pyval) (func : callable)
    (attribute : string) (name : option string) : result Network :=
  data_matrix <~ mapR (get_attribute attribute) ntwk_list ;;
  ntwk0 <~ getitem ntwk_list 0 ;;
  new_ntwk <~ copy ntwk0 ;;
  reduced <~ call_axis0 func data_matrix ;;
  let new_ntwk := Network_set_s new_ntwk reduced in
  match name with
  | Some name => Ok (Network_set_name new_ntwk name)
  | None => Ok new_ntwk
  end.

(* short hand name for convenience *)
Definition fon := func_on_networks.

(** ** NetworkSet *)

Definition network_property_names : list string :=
  [ "s"; "s_re"; "s_im"; "s_mag"; "s_deg"; "s_deg_unwrap"; "s_rad";
    "s_rad_unwrap"; "s_arcl"; "s_arcl_unwrap"; "passivity" ].

Definition network_method_names : list string :=
  [ "write_touchstone"; "interpolate"; "plot_s_smith" ].

Definition operator_names : list string :=
  [ "__pow__"; "__floordiv__"; "__mul__"; "__div__"; "__add__"; "__sub__" ].

Definition __add_a_operator (operator_name : string) : M unit :=
  setattr_class operator_name (OperatorFunc operator_name).

Definition __add_a_element_wise_method (network_method_name : string) : M unit :=
  setattr_class network_method_name (ElementWiseMethod network_method_name).

Definition __add_a_func_on_property (func : callable) (network_property_name : string)
  : M unit :=
  setattr_class (__name__ func ++ "_" ++ network_property_name)
                (FuncOnProperty func network_property_name).

Definition __add_a_plot_uncertainty (network_property_name : string) : M unit :=
  setattr_class ("plot_uncertainty_bounds_" ++ network_property_name)
                (PlotUncertainty network_property_name).

Definition __init__ (ntwk_set : list pyval) (name : option string) : M NetworkSet :=
  (* did they pass a list of Networks? *)
  ntwk0 <- liftR (getitem ntwk_set 0) ;;
  if negb (isinstance_Network ntwk0) then
    raiseM (TypeError "input must be list of Network types")
  else
  (* do all Networks have the same # ports? *)
  ports <- liftR (mapR get_number_of_ports ntwk_set) ;;
  if (1 <? size (list_to_set ports : gset Z))%nat then
    raiseM (ValueError "All elements in list of Networks must have same number of ports")
  else
  (* is all frequency information the same? *)
  same <- liftR (mapR (fun ntwk =>
                         ntwk0 <~ getitem ntwk_set 0 ;;
                         f0 <~ get_frequency ntwk0 ;;
                         f <~ get_frequency ntwk ;;
                         Ok (Frequency_eq f0 f)) ntwk_set) ;;
  if negb (forallb (fun b : bool => b) same) then
    raiseM (ValueError "All elements in list of Networks must have same frequency information")
  else
  (* we are good to go *)
  let self := {| ntwk_set := ntwk_set; name := name |} in
  (* dynamically generate properties *)
  _ <- forM_ network_property_names (fun network_property_name =>
         _ <- forM_ [npy_mean; npy_std] (fun func =>
                __add_a_func_on_property func network_property_name) ;;
         _ <- __add_a_plot_uncertainty network_property_name ;;
         _ <- __add_a_element_wise_method ("plot_" ++ network_property_name) ;;
         __add_a_element_wise_method "plot_s_db") ;;
  _ <- forM_ network_method_names __add_a_element_wise_method ;;
  _ <- forM_ operator_names __add_a_operator ;;
  retM self.

Definition __len__ (self : NetworkSet) : nat := length (ntwk_set self).

Definition __getitem__ (self : NetworkSet) (key : nat) : result pyval :=
  getitem (ntwk_set self) key.

(** [NetworkSet.from_zip(zip_file_name, *args, **kwargs)] with [cls] the class
    itself. *)
Definition from_zip (zip_file_name : string) (a : args) (kw : kwargs) : M NetworkSet :=
  z <- liftR (zipfile_ZipFile zip_file_name) ;;
  let filename_list := namelist z in
  ntwks <- liftR (mapR (fun filename =>
                          f <~ ZipFile_open z filename ;;
                          ntwk <~ Network_open f ;;
                          Ok (PyNetwork ntwk)) filename_list) ;;
  __init__ ntwks None.

(** *** Attribute lookup on an instance

    Python resolves [self.<attr>] on the class first when the class binds a
    property, then in the instance dictionary ([ntwk_set], [name]), then among
    the other class attributes.  [getattribute_generated] is that lookup for a
    name the [class] statement does not bind as a property; [getattribute]
    below adds the three properties of the class body. *)
Definition getattribute_generated (self : NetworkSet) (attr : string) : M pyval :=
  m <- class_lookup attr ;;
  match m with
  | Some (FuncOnProperty func network_property_name) =>
      (* fget = lambda self: fon(self.ntwk_set, func, network_property_name, name = self.name) *)
      ntwk <- liftR (fon (ntwk_set self) func network_property_name (name self)) ;;
      retM (PyNetwork ntwk)
  | _ =>
      if String.eqb attr "ntwk_set" then retM (PyList (ntwk_set self))
      else if String.eqb attr "name" then
        retM (match name self with Some s => PyStr s | None => PyNone end)
      else
        match m with
        | Some _ => retM (PyMethod attr)
        | None =>
            if bool_decide (attr ∈ class_body_methods) then retM (PyMethod attr)
            else raiseM (AttributeError attr)
        end
  end.

(** The property [mean_s_db]: the mean is taken on the magnitude before it is
    converted to dB. *)
Definition mean_s_db (self : NetworkSet) : M pyval :=
  ntwk <- getattribute_generated self "mean_s_mag" ;;
  s_db <- liftR (get_attribute "s_db" ntwk) ;;
  liftR (set_s ntwk s_db).

Definition std_s_db (self : NetworkSet) : M pyval :=
  ntwk <- getattribute_generated self "std_s_mag" ;;
  s_db <- liftR (get_attribute "s_db" ntwk) ;;
  liftR (set_s ntwk s_db).

Definition inv (self : NetworkSet) : M pyval :=
  ntwks <- liftR (mapR get_inv (ntwk_set self)) ;;
  new <- __init__ ntwks None ;;
  retM (PyOfSet new).

(** [self.__getattribute__(attr)] *)
Definition getattribute (self : NetworkSet) (attr : string) : M pyval :=
  m <- class_lookup attr ;;
  match m with
  | None =>
      if String.eqb attr "mean_s_db" then mean_s_db self
      else if String.eqb attr "std_s_db" then std_s_db self
      else if String.eqb attr "inv" then inv self
      else getattribute_generated self attr
  | Some _ => getattribute_generated self attr
  end.

(** *** Element-wise methods and operators *)

Definition element_wise_method (self : NetworkSet) (network_method_name : string)
    (a : args) (kw : kwargs) : M pyval :=
  output <- liftR (mapR (fun ntwk => call_method network_method_name ntwk a kw)
                        (ntwk_set self)) ;;
  out0 <- liftR (getitem output 0) ;;
  if isinstance_Network out0 then
    new <- __init__ output None ;;
    retM (PyOfSet new)
  else
    retM (PyList output).

(** The closure [operator_func] that [__add_a_operator operator_name] binds. *)
Definition operator_func (operator_name : string) (self : NetworkSet) (other : pyval)
  : M pyval :=
  match other with
  | PyNetworkSet other_ntwk_set _ =>
      if negb (Nat.eqb (length other_ntwk_set) (__len__ self)) then
        raiseM (ValueError "Network sets must be of same length to be casacaded")
      else
        out <- liftR (mapR (fun k =>
                              x <~ getitem (ntwk_set self) k ;;
                              y <~ getitem other_ntwk_set k ;;
                              call_method operator_name x [y] [])
                           (range (__len__ self))) ;;
        new <- __init__ out None ;;
        retM (PyOfSet new)
  | PyNetwork _ =>
      out <- liftR (mapR (fun ntwk => call_method operator_name ntwk [other] [])
                         (ntwk_set self)) ;;
      new <- __init__ out None ;;
      retM (PyOfSet new)
  | _ =>
      raiseM (TypeError "NetworkSet operators operate on either Network, or NetworkSet types")
  end.

(** *** Uncertainty bounds *)

(** [left + right] and [left - right] where [left] is the value of a
    [mean_<attribute>] lookup: a Network, or a bound method when the class
    binds the name to something that is not a property. *)
Definition binary_operator (operator_name : string) (left right : pyval) : result pyval :=
  match left with
  | PyNetwork _ | PyObject _ => call_method operator_name left [right] []
  | _ => Raise (TypeError "unsupported operand type(s)")
  end.

Definition uncertainty_ntwk_triplet (self : NetworkSet) (attribute : string)
    (n_deviations : option Scalar) : M (pyval * pyval * pyval) :=
  let n_deviations := default (Scalar_of_int 3) n_deviations in
  ntwk_mean <- getattribute self ("mean_" ++ attribute) ;;
  ntwk_std <- getattribute self ("std_" ++ attribute) ;;
  s <- liftR (get_attribute "s" ntwk_std) ;;
  ntwk_std <- liftR (set_s ntwk_std (numpy_times n_deviations s)) ;;
  upper_bound <- liftR (binary_operator "__add__" ntwk_mean ntwk_std) ;;
  lower_bound <- liftR (binary_operator "__sub__" ntwk_mean ntwk_std) ;;
  retM (ntwk_mean, lower_bound, upper_bound).

(** *** Reductions on demand and sets picked from a dictionary *)

(** [self.set_wise_function(func, a_property, ...)].  The extra arguments go
    to [func_on_networks], whose next parameter is [name]; the name of the
    set is not passed. *)
Definition set_wise_function (self : NetworkSet) (func : callable)
    (a_property : string) (name : option string) : result Network :=
  fon (ntwk_set self) func a_property name.

(** [s in k] on strings. *)
Fixpoint contains (s k : string) : bool :=
  String.prefix s k ||
  match k with
  | EmptyString => false
  | String _ k' => contains s k'
  end.

(** [ntwk_dict[k]] on a dictionary given by its items in iteration order. *)
Fixpoint dict_getitem (ntwk_dict : list (string * pyval)) (k : string) : result pyval :=
  match ntwk_dict with
  | [] => Raise (CollaboratorError "KeyError")
  | (k', v) :: ntwk_dict' =>
      if String.eqb k' k then Ok v else dict_getitem ntwk_dict' k
  end.

(** [getset(ntwk_dict, s, ...)]; the extra arguments are those of the
    constructor, that is the name.  The second component of the result is
    the line printed, if any. *)
Definition getset (ntwk_dict : list (string * pyval)) (s : string)
    (name : option string) : M (pyval * option string) :=
  ntwk_list <- liftR (mapR (dict_getitem ntwk_dict)
                           (List.filter (contains s) (map fst ntwk_dict))) ;;
  if (0 <? length ntwk_list)%nat then
    new <- __init__ ntwk_list name ;;
    retM (PyOfSet new, None)
  else
    retM (PyNone, Some ("Warning: No keys in ntwk_dict contain '" ++ s ++ "'")).

(** ** Specification-level vocabulary

    The definitions below are not transcriptions of source functions; they
    name what the theorems talk about. *)

(** The [setattr] calls of one run of [__init__], in program order. *)
Definition generated_members : list (string * member) :=
  flat_map (fun network_property_name =>
              [ (__name__ npy_mean ++ "_" ++ network_property_name,
                 FuncOnProperty npy_mean network_property_name);
                (__name__ npy_std ++ "_" ++ network_property_name,
                 FuncOnProperty npy_std network_property_name);
                ("plot_uncertainty_bounds_" ++ network_property_name,
                 PlotUncertainty network_property_name);
                ("plot_" ++ network_property_name,
                 ElementWiseMethod ("plot_" ++ network_property_name));
                ("plot_s_db", ElementWiseMethod "plot_s_db") ])
           network_property_names
  ++ map (fun n => (n, ElementWiseMethod n)) network_method_names
  ++ map (fun n => (n, OperatorFunc n)) operator_names.

(** The class namespace after those calls. *)
Definition populated (cls : gmap string member) : gmap string member :=
  fold_left (fun c kv => <[kv.1 := kv.2]> c) generated_members cls.

(** The last binding of [k] in a sequence of [setattr] calls. *)
Fixpoint last_binding (k : string) (kvs : list (string * member)) : option member :=
  match kvs with
  | [] => None
  | (k', m) :: kvs' =>
      match last_binding k kvs' with
      | Some m' => Some m'
      | None => if String.eqb k' k then Some m else None
      end
  end.

(** The names of the element-wise methods [__init__] generates. *)
Definition element_wise_names : list string :=
  map (fun network_property_name => "plot_" ++ network_property_name) network_property_names
  ++ "plot_s_db" :: network_method_names.

(** The values of a dictionary whose key contains [s], in iteration order. *)
Definition values_with_key_containing (s : string) (ntwk_dict : list (string * pyval))
  : list pyval :=
  map snd (List.filter (fun kv => contains s kv.1) ntwk_dict).

(** A collection the constructor accepts: its first element is a Network and
    every element exposes the port count of the first and a frequency axis the
    first one's compares equal to. *)
Definition accepted (l : list pyval) : Prop :=
  exists ntwk0 rest,
    l = PyNetwork ntwk0 :: rest /\
    Forall (fun x => get_number_of_ports x = Ok (number_of_ports ntwk0)) l /\
    Forall (fun x => exists f, get_frequency x = Ok f /\
                               Frequency_eq (frequency ntwk0) f = true) l.

(** [self] is an instance the constructor returned, and [cls] the class
    namespace it left behind. *)
Definition constructed (self : NetworkSet) (cls : gmap string member) : Prop :=
  exists cls0, __init__ (ntwk_set self) (name self) cls0 = (Ok self, cls).

(** The reduction property as the design document words it: stack the
    attribute of every member along a new leading axis, reduce along that
    axis, write the reduced array into the field [s] of a copy of the first
    member, and give the result the name of the set if it has one. *)
Definition stacked_reduction (first : Network) (members : list pyval)
    (reduce : list Array -> result Array) (attribute : string)
    (set_name : option string) : result pyval :=
  stacked <~ mapR (get_attribute attribute) members ;;
  reduced <~ reduce stacked ;;
  let wrapped := Network_set_s (Network_copy first) reduced in
  Ok (PyNetwork (match set_name with
                 | Some n => Network_set_name wrapped n
                 | None => wrapped
                 end)).

End Model.

Arguments pyval : clear implicits.
Arguments NetworkSet : clear implicits.
Arguments Collaborator : clear implicits.
Arguments callable : clear implicits.
Arguments member : clear implicits.

Notation "x <- c ;; k" := (bindM c (fun x => k))
  (at level 100, c at next level, right associativity).

(** ** A miniature collaborator with integer samples

    A small, executable stand-in for [network.Network], [numpy] and [zipfile]:
    a Network holds a port count, its frequency points and one integer sample
    per point.  It is used to run the model on concrete collections. *)

Module Toy.

Record Network : Type := mkNetwork {
  nports : Z;
  freq : list Z;
  s : list Z;
  label : option string
}.

(** An object that is not a Network but may expose the two attributes the
    constructor reads. *)
Record Duck : Type := mkDuck {
  duck_ports : option Z;
  duck_freq : option (list Z)
}.

Definition value : Type := pyval Network Duck.

Definition freq_eq (f g : list Z) : bool := bool_decide (f = g).

Definition attribute (attr : string) (n : Network) : option (list Z) :=
  if String.eqb attr "s" then Some (s n)
  else if String.eqb attr "s_re" then Some (s n)
  else if String.eqb attr "s_im" then Some (map (fun _ => 0%Z) (s n))
  else if String.eqb attr "s_mag" then Some (map Z.abs (s n))
  else None.

Definition set_s (n : Network) (a : list Z) : Network :=
  {| nports := nports n; freq := freq n; s := a; label := label n |}.

Definition set_name (n : Network) (nm : string) : Network :=
  {| nports := nports n; freq := freq n; s := s n; label := Some nm |}.

(** Sample-wise arithmetic between two Networks of this miniature. *)
Fixpoint zip_with_Z (f : Z -> Z -> Z) (a b : list Z) : list Z :=
  match a, b with
  | x :: a', y :: b' => f x y :: zip_with_Z f a' b'
  | _, _ => []
  end.

Definition arith (op : string) : option (Z -> Z -> Z) :=
  if String.eqb op "__add__" then Some Z.add
  else if String.eqb op "__sub__" then Some Z.sub
  else if String.eqb op "__mul__" then Some Z.mul
  else None.

Definition call (method : string) (n : Network) (a : list value)
    (kw : list (string * value)) : result value :=
  match arith method with
  | Some f =>
      match a with
      | [PyNetwork m] => Ok (PyNetwork (set_s n (zip_with_Z f (s n) (s m))))
      | _ => Raise (TypeError "unsupported operand")
      end
  | None =>
      if String.eqb method "interpolate" then Ok (PyNetwork n)
      else if String.eqb method "write_touchstone" then Ok PyNone
      else Raise (AttributeError method)
  end.

(** Every method of a Duck answers [None]. *)
Definition duck_call (method : string) (d : Duck) (a : list value)
    (kw : list (string * value)) : result value := Ok PyNone.

(** Reductions along the leading axis, with integer division. *)
Definition column_sums (rows : list (list Z)) : list Z :=
  match rows with
  | [] => []
  | r :: rows' => fold_left (zip_with_Z Z.add) rows' r
  end.

Definition same_shape (rows : list (list Z)) : bool :=
  match rows with
  | [] => true
  | r :: rows' => forallb (fun r' => Nat.eqb (length r') (length r)) rows'
  end.

Definition mean (rows : list (list Z)) : result (list Z) :=
  if same_shape rows then
    Ok (map (fun x => (x / Z.of_nat (length rows))%Z) (column_sums rows))
  else Raise (ValueError "setting an array element with a sequence.").

Definition std (rows : list (list Z)) : result (list Z) :=
  m <~ mean rows ;;
  sq <~ mean (map (fun r => zip_with_Z (fun x mu => ((x - mu) * (x - mu))%Z) r m) rows) ;;
  Ok (map Z.sqrt sq).

(** An archive: the file names in listing order, each with its content. *)
Definition archive : Type := list (string * list Z).

Definition ZipFile (zip_file_name : string) : result archive :=
  if String.eqb zip_file_name "myzip.zip" then
    Ok [ ("a.s1p", [1; 2; 3]%Z); ("b.s1p", [3; 4; 5]%Z) ]
  else Raise (CollaboratorError "No such file or directory").

Fixpoint entry (filename : string) (z : archive) : option (list Z) :=
  match z with
  | [] => None
  | (n, content) :: z' => if String.eqb n filename then Some content else entry filename z'
  end.

Definition zip_open (z : archive) (filename : string) : result (list Z) :=
  of_option (entry filename z)
            (CollaboratorError "There is no item named so in the archive").

(** Reading a file: one port, one frequency point per sample. *)
Definition open (content : list Z) : result Network :=
  Ok {| nports := 1;
        freq := map Z.of_nat (seq 0 (length content));
        s := content;
        label := None |}.

#[global] Instance collaborator
  : Collaborator (list Z) (list Z) Z Network Duck (list Z) archive :=
  {| Frequency_eq := freq_eq;
     number_of_ports := nports;
     frequency := freq;
     Network_attribute := attribute;
     Network_set_s := set_s;
     Network_set_name := set_name;
     Network_copy := fun n => n;
     Network_call := call;
     Network_inv := fun n => Ok (PyNetwork n);
     Network_open := open;
     Obj_number_of_ports := duck_ports;
     Obj_frequency := duck_freq;
     Obj_attribute := fun _ _ => None;
     Obj_call := duck_call;
     Obj_inv := fun _ => Raise (AttributeError "inv");
     numpy_mean := mean;
     numpy_std := std;
     numpy_times := fun k a => map (Z.mul k) a;
     Scalar_of_int := fun z => z;
     zipfile_ZipFile := ZipFile;
     namelist := map fst;
     ZipFile_open := zip_open |}.

(** Two one-port measurements on the same three frequency points, and a
    third one taken on other points. *)
Definition ntwk_a : Network :=
  {| nports := 1; freq := [10; 20; 30]%Z; s := [1; -2; 3]%Z; label := Some "a" |}.
Definition ntwk_b : Network :=
  {| nports := 1; freq := [10; 20; 30]%Z; s := [3; 4; -5]%Z; label := Some "b" |}.
Definition ntwk_c : Network :=
  {| nports := 1; freq := [10; 20; 40]%Z; s := [0; 0; 0]%Z; label := Some "c" |}.
Definition ntwk_2port : Network :=
  {| nports := 2; freq := [10; 20; 30]%Z; s := [7; 7; 7]%Z; label := None |}.

(** A Duck that looks like [ntwk_a] to the constructor. *)
Definition duck : Duck :=
  {| duck_ports := Some 1%Z; duck_freq := Some [10; 20; 30]%Z |}.

(** The class namespace once a NetworkSet has been constructed. *)
Definition cls : gmap string (member (list Z)) := populated at_class_definition.

(** The set of the two compatible measurements, named "set". *)
Definition measurements : NetworkSet Network Duck :=
  {| ntwk_set := [PyNetwork ntwk_a; PyNetwork ntwk_b]; name := Some "set" |}.

(** A set whose second member is the Duck. *)
Definition mixed : NetworkSet Network Duck :=
  {| ntwk_set := [PyNetwork ntwk_a; PyObject duck]; name := None |}.

End Toy.

(** ** A collaborator over the real numbers

    The arithmetic the module delegates to numpy, idealised: samples are
    complex numbers over [R], [npy.mean] and [npy.std] are the exact mean and
    population standard deviation along the stacking axis, and a Network's
    [s_mag] and [s_db] are [abs(s)] and [20*log10(abs(s))].  Rounding and the
    infinities of floating point are outside this model; [log10] stands for
    numpy's on positive arguments. *)

Module Ideal.

Local Open Scope R_scope.

Definition complex : Type := R * R.

Definition of_real (x : R) : complex := (x, 0).
Definition Cadd (a b : complex) : complex := (a.1 + b.1, a.2 + b.2).
Definition Csub (a b : complex) : complex := (a.1 - b.1, a.2 - b.2).
Definition Cscale (k : R) (a : complex) : complex := (k * a.1, k * a.2).

(** [npy.abs] *)
Definition Cabs (z : complex) : R := sqrt (z.1 * z.1 + z.2 * z.2).

Definition log10 (x : R) : R := ln x / ln 10.

(** [mf.magnitude_2_db] *)
Definition magnitude_2_db (x : R) : R := 20 * log10 x.

Record Network : Type := mkNetwork {
  nports : Z;
  freq : list Z;
  s : list complex;
  label : option string
}.

Definition value : Type := pyval Network Empty_set.

Definition attribute (attr : string) (n : Network) : option (list complex) :=
  if String.eqb attr "s" then Some (s n)
  else if String.eqb attr "s_re" then Some (map (fun z => of_real z.1) (s n))
  else if String.eqb attr "s_im" then Some (map (fun z => of_real z.2) (s n))
  else if String.eqb attr "s_mag" then Some (map (fun z => of_real (Cabs z)) (s n))
  else if String.eqb attr "s_db" then
    Some (map (fun z => of_real (magnitude_2_db (Cabs z))) (s n))
  else None.

Definition set_s (n : Network) (a : list complex) : Network :=
  {| nports := nports n; freq := freq n; s := a; label := label n |}.

Definition set_name (n : Network) (nm : string) : Network :=
  {| nports := nports n; freq := freq n; s := s n; label := Some nm |}.

Definition arith (op : string) : option (complex -> complex -> complex) :=
  if String.eqb op "__add__" then Some Cadd
  else if String.eqb op "__sub__" then Some Csub
  else None.

Definition call (method : string) (n : Network) (a : list value)
    (kw : list (string * value)) : result value :=
  match arith method, a with
  | Some f, [PyNetwork m] => Ok (PyNetwork (set_s n (zip_with f (s n) (s m))))
  | Some _, _ => Raise (TypeError "unsupported operand")
  | None, _ => Raise (AttributeError method)
  end.

Definition column_sums (rows : list (list complex)) : list complex :=
  match rows with
  | [] => []
  | r :: rows' => fold_left (zip_with Cadd) rows' r
  end.

Definition same_shape (rows : list (list complex)) : bool :=
  match rows with
  | [] => true
  | r :: rows' => forallb (fun r' => Nat.eqb (length r') (length r)) rows'
  end.

(** [npy.mean(data_matrix, axis=0)] *)
Definition mean (rows : list (list complex)) : result (list complex) :=
  if same_shape rows then
    Ok (map (Cscale (/ INR (length rows))) (column_sums rows))
  else Raise (ValueError "setting an array element with a sequence.").

(** [npy.std(data_matrix, axis=0)]: the root of the mean squared distance
    to the mean. *)
Definition std (rows : list (list complex)) : result (list complex) :=
  mu <~ mean rows ;;
  sq <~ mean (map (fun r =>
                     zip_with (fun x m => of_real (Cabs (Csub x m) * Cabs (Csub x m))) r mu)
                  rows) ;;
  Ok (map (fun z => of_real (sqrt z.1)) sq).

#[global] Instance collaborator
  : Collaborator (list Z) (list complex) R Network Empty_set unit unit :=
  {| Frequency_eq := fun f g => bool_decide (f = g);
     number_of_ports := nports;
     frequency := freq;
     Network_attribute := attribute;
     Network_set_s := set_s;
     Network_set_name := set_name;
     Network_copy := fun n => n;
     Network_call := call;
     Network_inv := fun _ => Raise (CollaboratorError "inv");
     Network_open := fun _ => Raise (CollaboratorError "no file");
     Obj_number_of_ports := fun o => match o with end;
     Obj_frequency := fun o => match o with end;
     Obj_attribute := fun _ o => match o with end;
     Obj_call := fun _ o => match o with end;
     Obj_inv := fun o => match o with end;
     numpy_mean := mean;
     numpy_std := std;
     numpy_times := fun k a => map (Cscale k) a;
     Scalar_of_int := IZR;
     zipfile_ZipFile := fun _ => Raise (CollaboratorError "no archive");
     namelist := fun _ => [];
     ZipFile_open := fun _ _ => Raise (CollaboratorError "no archive") |}.

(** The ensemble of the design document: one sample per member, of
    magnitude 1 and of magnitude 100. *)
Definition quiet : Network :=
  {| nports := 1; freq := [1%Z]; s := [of_real 1]; label := None |}.
Definition loud : Network :=
  {| nports := 1; freq := [1%Z]; s := [of_real 100]; label := None |}.
Definition ensemble : NetworkSet Network Empty_set :=
  {| ntwk_set := [PyNetwork quiet; PyNetwork loud]; name := None |}.

(** A sample that is a non-negative real number. *)
Definition nonneg_real (z : complex) : Prop := z.2 = 0 /\ 0 <= z.1.

(** The class namespace once a NetworkSet has been constructed. *)
Definition cls : gmap string (member (list complex)) := populated at_class_definition.

End Ideal.

(** * Properties *)

(** ** Results and comprehensions *)

Lemma bindR_Ok_inv {A B} (c : result A) (k : A -> result B) (b : B) :
  bindR c k = Ok b -> exists a, c = Ok a /\ k a = Ok b.
Proof. destruct c as [a|e]; simpl; [eauto | discriminate]. Qed.

Lemma mapR_Ok_Forall2 {A B} (f : A -> result B) (l : list A) (ys : list B) :
  mapR f l = Ok ys <-> Forall2 (fun x y => f x = Ok y) l ys.
Proof.
  revert ys; induction l as [|x l IH]; intros ys; simpl.
  - split; [intros [= <-]; constructor | inversion 1; reflexivity].
  - destruct (f x) as [y|e] eqn:Hx; simpl.
    + destruct (mapR f l) as [ys'|e] eqn:Hl; simpl.
      * split.
        -- intros [= <-]. constructor; [assumption | by apply IH].
        -- inversion 1 as [|? y' ? ys'' Hy Hys]; subst.
           apply IH in Hys. congruence.
      * split; [discriminate|].
        inversion 1 as [|? y' ? ys'' Hy Hys]; subst.
        apply IH in Hys. discriminate.
    + split; [discriminate|].
      inversion 1 as [|? y' ? ys'' Hy Hys]; subst. congruence.
Qed.

Lemma mapR_Raise_elem {A B} (f : A -> result B) (l : list A) (e : exn) :
  mapR f l = Raise e -> exists x, x ∈ l /\ f x = Raise e.
Proof.
  induction l as [|x l IH]; simpl; [discriminate|].
  destruct (f x) as [y|e'] eqn:Hx; simpl.
  - destruct (mapR f l) as [ys|e'']; simpl; [discriminate|].
    intros [= ->]. destruct IH as (x' & Hin & Hx'); [reflexivity|].
    exists x'. split; [by right | assumption].
  - intros [= ->]. exists x. split; [by left | assumption].
Qed.

Lemma mapR_length {A B} (f : A -> result B) (l : list A) (ys : list B) :
  mapR f l = Ok ys -> length ys = length l.
Proof.
  intros Hm. apply mapR_Ok_Forall2 in Hm.
  symmetry. eapply Forall2_length, Hm.
Qed.

Lemma mapR_ext_in {A B} (f g : A -> result B) (l : list A) :
  (forall x, x ∈ l -> f x = g x) -> mapR f l = mapR g l.
Proof.
  induction l as [|x l IH]; intros Hext; simpl; [reflexivity|].
  rewrite (Hext x) by left. rewrite IH; [reflexivity|].
  intros y Hy. apply Hext. by right.
Qed.

(** A comprehension succeeds exactly when each element does; the results
    come in the order of the elements. *)
Lemma mapR_Ok_lookup {A B} (f : A -> result B) (l : list A) (ys : list B) :
  mapR f l = Ok ys <->
  length l = length ys /\
  forall (k : nat) x y, l !! k = Some x -> ys !! k = Some y -> f x = Ok y.
Proof.
  rewrite mapR_Ok_Forall2. apply Forall2_same_length_lookup.
Qed.

(** A comprehension over [range(n)]. *)
Lemma mapR_seq_Ok {B} (h : nat -> result B) (ys : list B) (o : nat) :
  (forall (k : nat) y, ys !! k = Some y -> h (o + k)%nat = Ok y) ->
  mapR h (seq o (length ys)) = Ok ys.
Proof.
  revert o; induction ys as [|y ys IH]; intros o Hh; simpl; [reflexivity|].
  rewrite <- (Nat.add_0_r o) at 1. rewrite (Hh 0%nat y) by reflexivity. simpl.
  rewrite IH; [reflexivity|].
  intros k y' Hk. rewrite Nat.add_succ_comm. by apply Hh.
Qed.

Lemma mapR_Forall_intro {A B} (f : A -> result B) (P : B -> Prop) (l : list A) :
  Forall (fun x => exists y, f x = Ok y /\ P y) l ->
  exists ys, mapR f l = Ok ys /\ Forall P ys.
Proof.
  induction 1 as [|x l (y & Hy & HP) _ (ys & Hys & HPs)]; simpl.
  - exists []. split; [reflexivity | constructor].
  - exists (y :: ys). rewrite Hy, Hys. split; [reflexivity | by constructor].
Qed.

Lemma mapR_Forall_elim {A B} (f : A -> result B) (P : B -> Prop) (l : list A) ys :
  mapR f l = Ok ys -> Forall P ys ->
  Forall (fun x => exists y, f x = Ok y /\ P y) l.
Proof.
  rewrite mapR_Ok_Forall2. induction 1 as [|x y l ys Hxy _ IH]; intros HP.
  - constructor.
  - inversion HP; subst. constructor; [by exists y | by apply IH].
Qed.

(** ** The port-count test [len(set(ports)) > 1] *)

Lemma set_of_ports_small (p0 : Z) (ps : list Z) :
  (1 <? size (list_to_set (p0 :: ps) : gset Z))%nat = false <->
  Forall (fun p => p = p0) (p0 :: ps).
Proof.
  rewrite Nat.ltb_ge. split.
  - intros Hsize. apply Forall_forall. intros p Hp.
    destruct (decide (p = p0)) as [|Hne]; [assumption|exfalso].
    assert (Hsub : ({[p]} ∪ {[p0]} : gset Z) ⊆ list_to_set (p0 :: ps)).
    { apply union_subseteq. split; apply singleton_subseteq_l, elem_of_list_to_set;
        [assumption | by left]. }
    apply subseteq_size in Hsub.
    rewrite size_union in Hsub by set_solver.
    rewrite !size_singleton in Hsub. lia.
  - intros Hall.
    assert (Heq : (list_to_set (p0 :: ps) : gset Z) = {[p0]}).
    { apply set_eq. intros p. rewrite elem_of_list_to_set, elem_of_singleton.
      split.
      - intros Hp. by eapply Forall_forall in Hall.
      - intros ->. by left. }
    rewrite Heq, size_singleton. lia.
Qed.

Lemma set_of_ports_large (ps : list Z) (p q : Z) :
  p ∈ ps -> q ∈ ps -> p <> q ->
  (1 <? size (list_to_set ps : gset Z))%nat = true.
Proof.
  intros Hp Hq Hne. destruct ps as [|p0 ps]; [by apply elem_of_nil in Hp|].
  destruct ((1 <? size (list_to_set (p0 :: ps) : gset Z))%nat) eqn:Hsz; [reflexivity|].
  apply set_of_ports_small in Hsz.
  rewrite Forall_forall in Hsz.
  rewrite (Hsz p Hp), (Hsz q Hq) in Hne. congruence.
Qed.

(** ** The constructor *)

Section Properties.

Context {Frequency Array Scalar Network Obj FileObj ZipFile : Type}.
Context `{!Collaborator Frequency Array Scalar Network Obj FileObj ZipFile}.

Implicit Types (l : list (pyval Network Obj)) (cls : gmap string (member Array)).
Implicit Types (self : NetworkSet Network Obj) (nm : option string).

Lemma lookup_fold_setattr (kvs : list (string * member Array)) cls (k : string) :
  fold_left (fun c kv => <[kv.1 := kv.2]> c) kvs cls !! k =
  match last_binding k kvs with
  | Some m => Some m
  | None => cls !! k
  end.
Proof.
  revert cls; induction kvs as [|[k' m] kvs IH]; intros cls; simpl; [reflexivity|].
  rewrite IH. destruct (last_binding k kvs); [reflexivity|].
  destruct (String.eqb_spec k' k) as [->|Hne].
  - apply lookup_insert_eq.
  - by apply lookup_insert_ne.
Qed.

Lemma populated_lookup cls (k : string) :
  populated cls !! k =
  match last_binding k generated_members with
  | Some m => Some m
  | None => cls !! k
  end.
Proof. apply lookup_fold_setattr. Qed.

(** A second round of [setattr] calls changes nothing. *)
Lemma populated_idempotent cls : populated (populated cls) = populated cls.
Proof.
  apply map_eq. intros k. rewrite !populated_lookup.
  by destruct (last_binding k generated_members).
Qed.

(** [__init__] as a case analysis: the three checks in order and, when they
    pass, the calls listed in [generated_members]. *)
Lemma init_unfold l nm cls :
  __init__ l nm cls =
  match getitem l 0 with
  | Raise e => (Raise e, cls)
  | Ok ntwk0 =>
      if negb (isinstance_Network ntwk0) then
        (Raise (TypeError "input must be list of Network types"), cls)
      else
        match mapR get_number_of_ports l with
        | Raise e => (Raise e, cls)
        | Ok ports =>
            if (1 <? size (list_to_set ports : gset Z))%nat then
              (Raise (ValueError
                 "All elements in list of Networks must have same number of ports"), cls)
            else
              match mapR (fun ntwk =>
                            ntwk0 <~ getitem l 0 ;;
                            f0 <~ get_frequency ntwk0 ;;
                            f <~ get_frequency ntwk ;;
                            Ok (Frequency_eq f0 f)) l with
              | Raise e => (Raise e, cls)
              | Ok same =>
                  if negb (forallb (fun b : bool => b) same) then
                    (Raise (ValueError
                       "All elements in list of Networks must have same frequency information"),
                     cls)
                  else (Ok {| ntwk_set := l; name := nm |}, populated cls)
              end
        end
  end.
Proof.
  unfold __init__, bindM, liftR, raiseM.
  destruct (getitem l 0) as [ntwk0|e]; [|reflexivity].
  destruct (negb (isinstance_Network ntwk0)); [reflexivity|].
  destruct (mapR get_number_of_ports l) as [ports|e]; [|reflexivity].
  destruct ((1 <? size (list_to_set ports : gset Z))%nat); [reflexivity|].
  match goal with |- context [mapR ?f l] => destruct (mapR f l) as [same|e] end;
    [|reflexivity].
  destruct (negb (forallb (fun b : bool => b) same)); reflexivity.
Qed.

Lemma init_unfold_Network (ntwk0 : Network) (rest : list (pyval Network Obj)) nm cls :
  __init__ (PyNetwork ntwk0 :: rest) nm cls =
  match mapR get_number_of_ports (PyNetwork ntwk0 :: rest) with
  | Raise e => (Raise e, cls)
  | Ok ports =>
      if (1 <? size (list_to_set ports : gset Z))%nat then
        (Raise (ValueError
           "All elements in list of Networks must have same number of ports"), cls)
      else
        match mapR (fun ntwk => f <~ get_frequency ntwk ;;
                                Ok (Frequency_eq (frequency ntwk0) f))
                   (PyNetwork ntwk0 :: rest) with
        | Raise e => (Raise e, cls)
        | Ok same =>
            if negb (forallb (fun b : bool => b) same) then
              (Raise (ValueError
                 "All elements in list of Networks must have same frequency information"),
               cls)
            else (Ok {| ntwk_set := PyNetwork ntwk0 :: rest; name := nm |}, populated cls)
        end
  end.
Proof. rewrite init_unfold. reflexivity. Qed.

Lemma init_not_Network (x : pyval Network Obj) (rest : list (pyval Network Obj)) nm cls :
  isinstance_Network x = false ->
  __init__ (x :: rest) nm cls =
  (Raise (TypeError "input must be list of Network types"), cls).
Proof. intros Hx. rewrite init_unfold. unfold getitem. simpl. by rewrite Hx. Qed.

Lemma init_empty nm cls :
  __init__ ([] : list (pyval Network Obj)) nm cls = (Raise IndexError, cls).
Proof. reflexivity. Qed.

Lemma forallb_id_Forall (bs : list bool) :
  forallb (fun b : bool => b) bs = true <-> Forall (fun b => b = true) bs.
Proof.
  induction bs as [|b bs IH]; simpl.
  - split; [constructor | reflexivity].
  - rewrite andb_true_iff, IH. split.
    + intros [-> ?]. by constructor.
    + inversion 1; subst. by split.
Qed.

(** The constructor accepts exactly the collections described by
    [accepted]; it then stores the collection and the name as given and
    leaves the class namespace populated. *)
Lemma init_accepted l nm cls :
  accepted l ->
  __init__ l nm cls = (Ok {| ntwk_set := l; name := nm |}, populated cls).
Proof.
  intros (ntwk0 & rest & -> & Hports & Hfreq).
  rewrite init_unfold. unfold getitem. simpl lookup. simpl negb. cbv iota.
  destruct (mapR_Forall_intro get_number_of_ports (fun p => p = number_of_ports ntwk0)
              (PyNetwork ntwk0 :: rest)) as (ports & -> & Hp).
  { eapply Forall_impl; [exact Hports|]. intros x Hx.
    eexists; split; [exact Hx | reflexivity]. }
  assert (Hsmall : (1 <? size (list_to_set ports : gset Z))%nat = false).
  { destruct ports as [|p ports]; [reflexivity|].
    apply set_of_ports_small. inversion Hp; subst. assumption. }
  rewrite Hsmall.
  match goal with |- context [mapR ?f (PyNetwork ntwk0 :: rest)] =>
    destruct (mapR_Forall_intro f (fun b => b = true) (PyNetwork ntwk0 :: rest))
      as (same & -> & Hsame)
  end.
  { eapply Forall_impl; [exact Hfreq|]. intros x (f & Hf & Heq).
    exists true. simpl. rewrite Hf. simpl. by rewrite Heq. }
  apply forallb_id_Forall in Hsame. by rewrite Hsame.
Qed.

Lemma init_Ok_inv l nm cls self cls' :
  __init__ l nm cls = (Ok self, cls') ->
  accepted l /\ self = {| ntwk_set := l; name := nm |} /\ cls' = populated cls.
Proof.
  rewrite init_unfold.
  destruct l as [|x rest]; [discriminate|]. unfold getitem. simpl lookup. cbv iota.
  destruct x as [ntwk0| | | | | |]; simpl negb; cbv iota; try discriminate.
  destruct (mapR get_number_of_ports (PyNetwork ntwk0 :: rest)) as [ports|e] eqn:Hports;
    [|discriminate].
  destruct ((1 <? size (list_to_set ports : gset Z))%nat) eqn:Hsize; [discriminate|].
  match goal with |- context [mapR ?f (PyNetwork ntwk0 :: rest)] =>
    destruct (mapR f (PyNetwork ntwk0 :: rest)) as [same|e] eqn:Hsame
  end; [|discriminate].
  destruct (forallb (fun b : bool => b) same) eqn:Hall; simpl; [|discriminate].
  intros [= <- <-]. split; [|by split].
  exists ntwk0, rest. split; [reflexivity|]. split.
  - assert (Hp : Forall (fun p => p = number_of_ports ntwk0) ports).
    { pose proof Hports as Hp0. simpl in Hp0.
      destruct (mapR get_number_of_ports rest) as [ps|]; [|discriminate].
      simpl in Hp0. injection Hp0 as <-.
      by apply set_of_ports_small. }
    eapply Forall_impl; [exact (mapR_Forall_elim _ _ _ _ Hports Hp)|].
    intros x (y & Hy & ->). exact Hy.
  - apply forallb_id_Forall in Hall.
    eapply Forall_impl; [exact (mapR_Forall_elim _ _ _ _ Hsame Hall)|].
    intros x (b & Hb & ->). simpl in Hb.
    destruct (get_frequency x) as [f|]; [|discriminate]. simpl in Hb.
    exists f. split; [reflexivity | congruence].
Qed.

(** A construction that raises leaves the class namespace as it was. *)
Lemma init_Raise_state l nm cls e cls' :
  __init__ l nm cls = (Raise e, cls') -> cls' = cls.
Proof.
  rewrite init_unfold.
  repeat match goal with
         | |- context [match ?c with _ => _ end] => destruct c
         end; congruence.
Qed.

Lemma ports_of_Networks (ns : list Network) :
  mapR get_number_of_ports (map PyNetwork ns) = Ok (map number_of_ports ns).
Proof.
  induction ns as [|n ns IH]; simpl; [reflexivity|]. by rewrite IH.
Qed.

Lemma frequencies_of_Networks (f0 : Frequency) (ns : list Network) :
  mapR (fun ntwk : pyval Network Obj =>
          f <~ get_frequency ntwk ;; Ok (Frequency_eq f0 f)) (map PyNetwork ns)
  = Ok (map (fun n => Frequency_eq f0 (frequency n)) ns).
Proof.
  induction ns as [|n ns IH]; simpl; [reflexivity|]. by rewrite IH.
Qed.

Lemma get_number_of_ports_Raise (x : pyval Network Obj) e :
  get_number_of_ports x = Raise e -> e = AttributeError "number_of_ports".
Proof.
  destruct x; simpl; try congruence.
  destruct (Obj_number_of_ports o); simpl; congruence.
Qed.

Lemma get_frequency_Raise (x : pyval Network Obj) e :
  get_frequency x = Raise e -> e = AttributeError "frequency".
Proof.
  destruct x; simpl; try congruence.
  destruct (Obj_frequency o); simpl; congruence.
Qed.

(** C5.  Constructing a NetworkSet from a non-empty collection of Networks
    raises ValueError (the configuration error) whenever two members differ
    in port count, and whenever some member's frequency does not compare
    equal to the first member's; when every member has the port count of the
    first and a frequency equal to the first one's, the constructor returns
    an instance holding the collection and the name unchanged. *)
Theorem init_validates_ports_and_frequency
    (ntwk0 : Network) (rest : list Network) nm cls :
  ((exists a b, a ∈ ntwk0 :: rest /\ b ∈ ntwk0 :: rest /\
                number_of_ports a <> number_of_ports b) ->
   exists msg, __init__ (map PyNetwork (ntwk0 :: rest)) nm cls
               = (Raise (ValueError msg), cls))
  /\
  ((exists b, b ∈ ntwk0 :: rest /\
              Frequency_eq (frequency ntwk0) (frequency b) = false) ->
   exists msg, __init__ (map PyNetwork (ntwk0 :: rest)) nm cls
               = (Raise (ValueError msg), cls))
  /\
  ((forall b, b ∈ ntwk0 :: rest -> number_of_ports b = number_of_ports ntwk0) ->
   (forall b, b ∈ ntwk0 :: rest ->
              Frequency_eq (frequency ntwk0) (frequency b) = true) ->
   exists cls', __init__ (map PyNetwork (ntwk0 :: rest)) nm cls
                = (Ok {| ntwk_set := map PyNetwork (ntwk0 :: rest); name := nm |}, cls')).
Proof.
  split; [|split].
  - intros (a & b & Ha & Hb & Hne).
    change (map PyNetwork (ntwk0 :: rest))
      with (PyNetwork ntwk0 :: map (@PyNetwork Network Obj) rest).
    rewrite init_unfold_Network.
    change (PyNetwork ntwk0 :: map PyNetwork rest)
      with (map (@PyNetwork Network Obj) (ntwk0 :: rest)).
    rewrite ports_of_Networks.
    rewrite (set_of_ports_large _ (number_of_ports a) (number_of_ports b));
      [eauto | | | assumption].
    + apply list_elem_of_fmap. eauto.
    + apply list_elem_of_fmap. eauto.
  - intros (b & Hb & Hneq).
    change (map PyNetwork (ntwk0 :: rest))
      with (PyNetwork ntwk0 :: map (@PyNetwork Network Obj) rest).
    rewrite init_unfold_Network.
    change (PyNetwork ntwk0 :: map PyNetwork rest)
      with (map (@PyNetwork Network Obj) (ntwk0 :: rest)).
    rewrite ports_of_Networks.
    destruct ((1 <? size _)%nat); [eauto|].
    rewrite frequencies_of_Networks.
    assert (Hall : forallb (fun b : bool => b)
                     (map (fun n => Frequency_eq (frequency ntwk0) (frequency n))
                          (ntwk0 :: rest)) = false).
    { apply not_true_is_false. intros Hall. apply forallb_id_Forall in Hall.
      rewrite Forall_forall in Hall.
      rewrite (Hall (Frequency_eq (frequency ntwk0) (frequency b))) in Hneq;
        [discriminate|].
      apply list_elem_of_fmap. eauto. }
    rewrite Hall. simpl. eauto.
  - intros Hports Hfreq. exists (populated cls). apply init_accepted.
    exists ntwk0, (map PyNetwork rest). split; [reflexivity|].
    change (PyNetwork ntwk0 :: map PyNetwork rest)
      with (map (@PyNetwork Network Obj) (ntwk0 :: rest)).
    split; apply Forall_fmap, Forall_forall; intros b Hb; simpl.
    + by rewrite Hports.
    + eauto.
Qed.

(** C9.  The type check of the constructor looks at the first element only:
    construction raises TypeError exactly when the collection has a first
    element that is not a Network; a collection that starts with a Network is
    never answered with TypeError, whatever its later elements are. *)
Theorem init_type_check_first_only l nm cls :
  ((exists msg, (__init__ l nm cls).1 = Raise (TypeError msg)) <->
   (exists x rest, l = x :: rest /\ isinstance_Network x = false))
  /\
  (forall ntwk0 rest msg,
     l = PyNetwork ntwk0 :: rest -> (__init__ l nm cls).1 = Raise (TypeError msg) -> False).
Proof.
  assert (Hnet : forall ntwk0 rest msg,
             (__init__ (PyNetwork ntwk0 :: rest) nm cls).1 = Raise (TypeError msg) -> False).
  { intros ntwk0 rest msg. rewrite init_unfold_Network.
    destruct (mapR get_number_of_ports _) as [ports|e] eqn:Hports.
    - destruct ((1 <? size _)%nat); [discriminate|].
      match goal with |- context [mapR ?f ?l'] =>
        destruct (mapR f l') as [same|e] eqn:Hsame
      end.
      + destruct (negb _); discriminate.
      + apply mapR_Raise_elem in Hsame as (x & _ & Hx). simpl in Hx.
        destruct (get_frequency x) as [f|e'] eqn:Hf; simpl in Hx; [discriminate|].
        apply get_frequency_Raise in Hf. simpl. congruence.
    - apply mapR_Raise_elem in Hports as (x & _ & Hx).
      apply get_number_of_ports_Raise in Hx. simpl. congruence. }
  split.
  - split.
    + intros (msg & Hmsg). destruct l as [|x rest].
      * rewrite init_empty in Hmsg. discriminate.
      * exists x, rest. split; [reflexivity|].
        destruct x; try reflexivity. exfalso. eapply Hnet, Hmsg.
    + intros (x & rest & -> & Hx). rewrite init_not_Network by assumption.
      simpl. eauto.
  - intros ntwk0 rest msg ->. apply Hnet.
Qed.

(** ** The class namespace after a construction *)

Ltac each_listed H :=
  repeat (apply elem_of_cons in H as [H|H]; [subst|]);
  try (by apply elem_of_nil in H).

Lemma generated_member_bound cls (k : string) (m : member Array) :
  (k, m) ∈ generated_members -> populated cls !! k = Some m.
Proof.
  intros Hin. rewrite populated_lookup.
  unfold generated_members in Hin. simpl in Hin.
  repeat (apply elem_of_cons in Hin as [Hin|Hin];
          [injection Hin as -> ->; vm_compute; reflexivity|]).
  by apply elem_of_nil in Hin.
Qed.

Lemma other_names_untouched cls (k : string) :
  k ∉ map fst generated_members -> populated cls !! k = cls !! k.
Proof.
  intros Hk. rewrite populated_lookup.
  assert (Hnone : forall kvs : list (string * member Array),
             k ∉ map fst kvs -> last_binding k kvs = None).
  { induction kvs as [|[k' m] kvs IH]; simpl; [reflexivity|].
    intros Hnot. apply not_elem_of_cons in Hnot as [Hne Hnot].
    rewrite IH by assumption.
    destruct (String.eqb_spec k' k); [congruence | reflexivity]. }
  by rewrite Hnone.
Qed.

Lemma reduction_property_bound cls (func : callable Array) (attribute : string) :
  func ∈ [npy_mean; npy_std] -> attribute ∈ network_property_names ->
  populated cls !! (__name__ func ++ "_" ++ attribute)
  = Some (FuncOnProperty func attribute).
Proof.
  intros Hf Ha. rewrite populated_lookup.
  unfold network_property_names in Ha.
  each_listed Hf; each_listed Ha; vm_compute; reflexivity.
Qed.

Lemma operator_bound cls (operator_name : string) :
  operator_name ∈ operator_names ->
  populated cls !! operator_name = Some (OperatorFunc operator_name).
Proof.
  intros Ho. rewrite populated_lookup.
  unfold operator_names in Ho. each_listed Ho; vm_compute; reflexivity.
Qed.

Lemma element_wise_bound cls (method : string) :
  method ∈ element_wise_names ->
  populated cls !! method = Some (ElementWiseMethod method).
Proof.
  intros Hm. rewrite populated_lookup.
  unfold element_wise_names in Hm. simpl in Hm.
  each_listed Hm; vm_compute; reflexivity.
Qed.

Lemma constructed_inv self cls :
  constructed self cls ->
  accepted (ntwk_set self) /\ populated cls = cls.
Proof.
  intros (cls0 & Hinit). apply init_Ok_inv in Hinit as (Hacc & _ & ->).
  split; [assumption | apply populated_idempotent].
Qed.

(** C8 (as amended).  The generated members are not on the class when the
    class statement has been executed; it is the constructor that writes
    them.  A construction that succeeds binds every generated name to its
    member, whatever the name was bound to before, and touches no other
    name; a construction that raises writes nothing; and after one
    successful construction every further one leaves the namespace as it
    found it. *)
Theorem registry_written_by_constructor l nm cls :
  (forall k : string, (at_class_definition : gmap string (member Array)) !! k = None)
  /\
  (forall self cls',
     __init__ l nm cls = (Ok self, cls') ->
     (forall k m, (k, m) ∈ generated_members -> cls' !! k = Some m) /\
     (forall k, k ∉ map fst generated_members -> cls' !! k = cls !! k))
  /\
  (forall e cls', __init__ l nm cls = (Raise e, cls') -> cls' = cls)
  /\
  (forall self cls' l2 nm2 self2 cls'',
     __init__ l nm cls = (Ok self, cls') ->
     __init__ l2 nm2 cls' = (Ok self2, cls'') ->
     cls'' = cls').
Proof.
  split; [|split; [|split]].
  - intros k. apply lookup_empty.
  - intros self cls' Hinit. apply init_Ok_inv in Hinit as (_ & _ & ->).
    split; [apply generated_member_bound | apply other_names_untouched].
  - intros e cls'. apply init_Raise_state.
  - intros self cls' l2 nm2 self2 cls'' H1 H2.
    apply init_Ok_inv in H1 as (_ & _ & ->).
    apply init_Ok_inv in H2 as (_ & _ & ->).
    apply populated_idempotent.
Qed.

(** ** Reduction properties *)

(** On a collection that starts with a Network, [func_on_networks] computes
    the stacked reduction. *)
Lemma fon_stacked_reduction (first : Network) (rest : list (pyval Network Obj))
    (func : callable Array) (attribute : string) nm :
  bindR (fon (PyNetwork first :: rest) func attribute nm) (fun ntwk => Ok (PyNetwork ntwk))
  = stacked_reduction first (PyNetwork first :: rest) (call_axis0 func) attribute nm.
Proof.
  unfold fon, func_on_networks, stacked_reduction.
  destruct (mapR (get_attribute attribute) (PyNetwork first :: rest)) as [data_matrix|e];
    [|reflexivity].
  simpl. destruct (call_axis0 func data_matrix) as [reduced|e]; [|reflexivity].
  simpl. by destruct nm.
Qed.

Lemma getattribute_property self cls (attr : string) (func : callable Array)
    (network_property_name : string) :
  cls !! attr = Some (FuncOnProperty func network_property_name) ->
  getattribute self attr cls =
  (bindR (fon (ntwk_set self) func network_property_name (name self))
         (fun ntwk => Ok (PyNetwork ntwk)), cls).
Proof.
  intros Hm. unfold getattribute, getattribute_generated, bindM, class_lookup.
  rewrite Hm. cbv beta iota. rewrite Hm. unfold liftR, retM.
  by destruct (fon (ntwk_set self) func network_property_name (name self)).
Qed.

(** C2.  On an instance the constructor returned, the generated property
    [<func>_<attribute>], for [func] one of [npy.mean], [npy.std] and
    [attribute] one of the eleven listed names, has the value obtained by
    stacking that attribute of every member, reducing with [func] along the
    stacking axis and writing the result into [s] of a copy of the first
    member, named after the set when the set has a name. *)
Theorem reduction_property_value self cls (func : callable Array) (attribute : string) :
  constructed self cls ->
  func ∈ [npy_mean; npy_std] ->
  attribute ∈ network_property_names ->
  exists first rest,
    ntwk_set self = PyNetwork first :: rest /\
    getattribute self (__name__ func ++ "_" ++ attribute) cls
    = (stacked_reduction first (ntwk_set self) (call_axis0 func) attribute (name self),
       cls).
Proof.
  intros Hc Hf Ha. apply constructed_inv in Hc as ((first & rest & Hl & _) & Hcls).
  exists first, rest. split; [assumption|].
  rewrite (getattribute_property self cls _ func attribute).
  - by rewrite Hl, fon_stacked_reduction.
  - rewrite <- Hcls. by apply reduction_property_bound.
Qed.

(** ** The archive constructor *)

(** C10.  [from_zip] never looks at its extra positional and keyword
    arguments: its outcome is the one obtained without them, and a set it
    returns has the default name [None]. *)
Theorem from_zip_ignores_arguments (zip_file_name : string)
    (a : args) (kw : kwargs) cls :
  from_zip zip_file_name a kw cls = from_zip zip_file_name [] [] cls /\
  (forall self cls',
     from_zip zip_file_name a kw cls = (Ok self, cls') -> name self = None).
Proof.
  split; [reflexivity|].
  unfold from_zip, bindM, liftR. intros self cls'.
  destruct (zipfile_ZipFile zip_file_name) as [z|e]; [|discriminate].
  destruct (mapR _ (namelist z)) as [ntwks|e]; [|discriminate].
  intros Hinit. by apply init_Ok_inv in Hinit as (_ & -> & _).
Qed.

(** ** Binary operators *)

Lemma init_in_constructed_class l cls self :
  constructed self cls -> accepted l ->
  (new <- __init__ l None ;; retM (PyOfSet new)) cls = (Ok (PyNetworkSet l None), cls).
Proof.
  intros Hc Hacc. apply constructed_inv in Hc as [_ Hcls].
  unfold bindM, retM. rewrite (init_accepted l None cls Hacc).
  by rewrite Hcls.
Qed.

(** C3.  After a construction the class binds each of the six operator names
    to the closure made for that name.  Applied to another NetworkSet of a
    different length the closure raises ValueError (the configuration
    error); applied to one of the same length N it returns a new NetworkSet
    whose k-th element is what the k-th member answers to the operator with
    the k-th member of the other set as operand, for every k < N.  The
    results enter the new set through the constructor, so they are assumed
    to be a collection it accepts. *)
Theorem operator_on_two_sets self (other : NetworkSet Network Obj) cls
    (operator_name : string) :
  operator_name ∈ operator_names ->
  constructed self cls ->
  cls !! operator_name = Some (OperatorFunc operator_name)
  /\
  (length (ntwk_set other) <> length (ntwk_set self) ->
   exists msg, operator_func operator_name self (PyOfSet other) cls
               = (Raise (ValueError msg), cls))
  /\
  (forall out : list (pyval Network Obj),
     length (ntwk_set other) = length (ntwk_set self) ->
     length out = length (ntwk_set self) ->
     (forall (k : nat) x y,
        ntwk_set self !! k = Some x -> ntwk_set other !! k = Some y ->
        exists r, out !! k = Some r /\ call_method operator_name x [y] [] = Ok r) ->
     accepted out ->
     operator_func operator_name self (PyOfSet other) cls
     = (Ok (PyNetworkSet out None), cls)).
Proof.
  intros Hop Hc. split; [|split].
  - destruct (constructed_inv _ _ Hc) as [_ <-]. by apply operator_bound.
  - intros Hlen. unfold operator_func, PyOfSet, __len__.
    apply Nat.eqb_neq in Hlen. rewrite Hlen. simpl. unfold raiseM. eauto.
  - intros out Hlen Hout Hres Hacc. unfold operator_func, PyOfSet, __len__.
    rewrite (proj2 (Nat.eqb_eq _ _) Hlen). simpl negb. cbv iota.
    unfold range. rewrite <- Hout.
    rewrite (mapR_seq_Ok _ out 0).
    + change (bindM (liftR (Ok out)) ?k cls) with (k out cls).
      by apply (init_in_constructed_class out cls self).
    + intros k r Hk. simpl.
      assert (Hlt : (k < length out)%nat) by (eapply lookup_lt_Some, Hk).
      destruct (lookup_lt_is_Some_2 (ntwk_set self) k) as [x Hx]; [lia|].
      destruct (lookup_lt_is_Some_2 (ntwk_set other) k) as [y Hy]; [lia|].
      unfold getitem. rewrite Hx, Hy. simpl.
      destruct (Hres k x y Hx Hy) as (r' & Hr' & Hcall). congruence.
Qed.

(** C4.  Applied to a single Network, the closure of every operator returns
    a new NetworkSet whose k-th element is what the k-th member answers to
    the operator with that Network as operand (the results being a
    collection the constructor accepts); applied to anything that is neither
    a NetworkSet nor a Network it raises TypeError. *)
Theorem operator_on_single_operand self cls (operator_name : string) :
  operator_name ∈ operator_names ->
  constructed self cls ->
  cls !! operator_name = Some (OperatorFunc operator_name)
  /\
  (forall (ntwk : Network) (out : list (pyval Network Obj)),
     length out = length (ntwk_set self) ->
     (forall (k : nat) x,
        ntwk_set self !! k = Some x ->
        exists r, out !! k = Some r /\
                  call_method operator_name x [PyNetwork ntwk] [] = Ok r) ->
     accepted out ->
     operator_func operator_name self (PyNetwork ntwk) cls
     = (Ok (PyNetworkSet out None), cls))
  /\
  (forall other : pyval Network Obj,
     (forall ntwk, other <> PyNetwork ntwk) ->
     (forall members nm, other <> PyNetworkSet members nm) ->
     exists msg, operator_func operator_name self other cls
                 = (Raise (TypeError msg), cls)).
Proof.
  intros Hop Hc. split; [|split].
  - destruct (constructed_inv _ _ Hc) as [_ <-]. by apply operator_bound.
  - intros ntwk out Hout Hres Hacc. unfold operator_func.
    assert (Hmap : mapR (fun x => call_method operator_name x [PyNetwork ntwk] [])
                        (ntwk_set self) = Ok out).
    { apply mapR_Ok_lookup. split; [by symmetry|].
      intros k x r Hx Hr. destruct (Hres k x Hx) as (r' & Hr' & Hcall). congruence. }
    rewrite Hmap.
    change (bindM (liftR (Ok out)) ?k cls) with (k out cls).
    by apply (init_in_constructed_class out cls self).
  - intros other Hnet Hset. unfold operator_func, raiseM.
    destruct other; eauto.
    + by destruct (Hnet ntwk).
    + by destruct (Hset ntwk_set0 name0).
Qed.

(** ** Element-wise methods *)

(** C7 (as amended).  After a construction the class binds each element-wise
    name to the wrapper of the same-named member method.  The wrapper calls
    that method on every member with the arguments it was given; an
    exception of a member propagates.  What it returns is decided by the
    first result alone: if the first result is not a Network, the plain list
    of results; if it is one, the results go to the constructor, which
    returns a new NetworkSet when it accepts them and raises otherwise. *)
Theorem element_wise_method_first_result self cls (method : string)
    (a : args) (kw : kwargs) :
  constructed self cls ->
  method ∈ element_wise_names ->
  cls !! method = Some (ElementWiseMethod method)
  /\
  (forall e,
     mapR (fun ntwk => call_method method ntwk a kw) (ntwk_set self) = Raise e ->
     element_wise_method self method a kw cls = (Raise e, cls))
  /\
  (forall output,
     mapR (fun ntwk => call_method method ntwk a kw) (ntwk_set self) = Ok output ->
     exists out0 rest,
       output = out0 :: rest /\
       (isinstance_Network out0 = false ->
        element_wise_method self method a kw cls = (Ok (PyList output), cls)) /\
       (accepted output ->
        element_wise_method self method a kw cls = (Ok (PyNetworkSet output None), cls)) /\
       (isinstance_Network out0 = true -> ~ accepted output ->
        exists e, element_wise_method self method a kw cls = (Raise e, cls))).
Proof.
  intros Hc Hm. split; [|split].
  - destruct (constructed_inv _ _ Hc) as [_ <-]. by apply element_wise_bound.
  - intros e He. unfold element_wise_method, bindM, liftR. by rewrite He.
  - intros output Hout.
    destruct (constructed_inv _ _ Hc) as [(ntwk0 & members & Hl & _) Hcls].
    pose proof (mapR_length _ _ _ Hout) as Hlen. rewrite Hl in Hlen.
    destruct output as [|out0 rest]; [discriminate|].
    exists out0, rest. split; [reflexivity|].
    unfold element_wise_method, bindM, liftR. rewrite Hout.
    unfold getitem. simpl lookup. cbv iota.
    split; [|split].
    + by intros ->.
    + intros Hacc. pose proof Hacc as (n & r & [= -> ->] & _). simpl.
      rewrite (init_accepted _ None cls Hacc). by rewrite Hcls.
    + intros -> Hnot.
      destruct (__init__ (out0 :: rest) None cls) as [[new|e] cls'] eqn:Hinit.
      * apply init_Ok_inv in Hinit as (Hacc & _). contradiction.
      * apply init_Raise_state in Hinit as ->. eauto.
Qed.

(** ** Uncertainty bounds *)

(** C6.  For an attribute of the enumerated list, when the two reductions
    succeed and the Network operators [+] and [-] answer with Networks,
    [uncertainty_ntwk_triplet] returns the triple
    (mean, mean - n*std, mean + n*std): its first component is the value of
    the property [mean_<attribute>], and the bounds are that mean plus and
    minus the value of [std_<attribute>] with its [s] multiplied by n, where
    n is the requested number of deviations and 3 when none is given. *)
Theorem uncertainty_ntwk_triplet_value self cls (attribute : string)
    (n_deviations : option Scalar)
    (ntwk_mean ntwk_std : Network) (s_std : Array) (lower upper : Network) :
  constructed self cls ->
  attribute ∈ network_property_names ->
  fon (ntwk_set self) npy_mean attribute (name self) = Ok ntwk_mean ->
  fon (ntwk_set self) npy_std attribute (name self) = Ok ntwk_std ->
  Network_attribute "s" ntwk_std = Some s_std ->
  Network_call "__add__" ntwk_mean
    [PyNetwork (Network_set_s ntwk_std
                  (numpy_times (default (Scalar_of_int 3) n_deviations) s_std))] []
  = Ok (PyNetwork upper) ->
  Network_call "__sub__" ntwk_mean
    [PyNetwork (Network_set_s ntwk_std
                  (numpy_times (default (Scalar_of_int 3) n_deviations) s_std))] []
  = Ok (PyNetwork lower) ->
  getattribute self ("mean_" ++ attribute) cls = (Ok (PyNetwork ntwk_mean), cls) /\
  getattribute self ("std_" ++ attribute) cls = (Ok (PyNetwork ntwk_std), cls) /\
  uncertainty_ntwk_triplet self attribute n_deviations cls
  = (Ok (PyNetwork ntwk_mean, PyNetwork lower, PyNetwork upper), cls).
Proof.
  intros Hc Ha Hmean Hstd Hs Hadd Hsub.
  destruct (constructed_inv _ _ Hc) as [_ Hcls].
  assert (Hgm : getattribute self ("mean_" ++ attribute) cls
                = (Ok (PyNetwork ntwk_mean), cls)).
  { rewrite (getattribute_property self cls _ npy_mean attribute).
    - by rewrite Hmean.
    - rewrite <- Hcls. apply (reduction_property_bound cls npy_mean attribute);
        [by left | assumption]. }
  assert (Hgs : getattribute self ("std_" ++ attribute) cls
                = (Ok (PyNetwork ntwk_std), cls)).
  { rewrite (getattribute_property self cls _ npy_std attribute).
    - by rewrite Hstd.
    - rewrite <- Hcls. apply (reduction_property_bound cls npy_std attribute);
        [by right; left | assumption]. }
  split; [assumption|]. split; [assumption|].
  unfold uncertainty_ntwk_triplet, bindM. rewrite Hgm, Hgs.
  unfold liftR, retM. simpl. rewrite Hs. simpl. by rewrite Hadd, Hsub.
Qed.

(** ** Magnitude in dB *)

Lemma getattribute_generated_property self cls (attr : string) (func : callable Array)
    (network_property_name : string) :
  cls !! attr = Some (FuncOnProperty func network_property_name) ->
  getattribute_generated self attr cls =
  (bindR (fon (ntwk_set self) func network_property_name (name self))
         (fun ntwk => Ok (PyNetwork ntwk)), cls).
Proof.
  intros Hm. unfold getattribute_generated, bindM, class_lookup.
  rewrite Hm. unfold liftR, retM.
  by destruct (fon (ntwk_set self) func network_property_name (name self)).
Qed.

(** [mean_s_db] reduces the magnitudes and converts the reduced Network. *)
Lemma mean_s_db_unfold self cls :
  constructed self cls ->
  mean_s_db self cls =
  (ntwk <~ fon (ntwk_set self) npy_mean "s_mag" (name self) ;;
   s_db <~ of_option (Network_attribute "s_db" ntwk) (AttributeError "s_db") ;;
   Ok (PyNetwork (Network_set_s ntwk s_db)), cls).
Proof.
  intros Hc. destruct (constructed_inv _ _ Hc) as [_ Hcls].
  unfold mean_s_db, bindM.
  rewrite (getattribute_generated_property self cls _ npy_mean "s_mag").
  - destruct (fon (ntwk_set self) npy_mean "s_mag" (name self)) as [ntwk|e];
      [|reflexivity].
    simpl. unfold liftR. by destruct (Network_attribute "s_db" ntwk).
  - rewrite <- Hcls. apply (reduction_property_bound cls npy_mean "s_mag").
    + by left.
    + unfold network_property_names. repeat constructor.
Qed.

Lemma from_zip_accepted (zip_file_name : string) (a : args) (kw : kwargs) cls
    (z : ZipFile) (ntwks : list (pyval Network Obj)) :
  zipfile_ZipFile zip_file_name = Ok z ->
  mapR (fun filename =>
          f <~ ZipFile_open z filename ;;
          ntwk <~ Network_open f ;;
          Ok (PyNetwork ntwk)) (namelist z) = Ok ntwks ->
  accepted ntwks ->
  from_zip zip_file_name a kw cls
  = (Ok {| ntwk_set := ntwks; name := None |}, populated cls).
Proof.
  intros Hz Hn Hacc. unfold from_zip, bindM, liftR. rewrite Hz, Hn.
  by apply init_accepted.
Qed.

End Properties.

(** ** The model at work on the miniature collaborator *)

(** Proves [accepted l] for a collection written out in full. *)
Ltac accept_collection :=
  eexists _, _; split; [reflexivity|];
  split; repeat first [ apply Forall_nil
                      | apply Forall_cons; split
                      | reflexivity
                      | eexists; split; reflexivity ].

Lemma measurements_constructed : constructed Toy.measurements Toy.cls.
Proof. exists at_class_definition. apply init_accepted. accept_collection. Defined.

Lemma mixed_constructed : constructed Toy.mixed Toy.cls.
Proof. exists at_class_definition. apply init_accepted. accept_collection. Defined.

(** The two compatible measurements are accepted, with their name; a
    measurement on two ports or on other frequency points is refused. *)
Lemma init_validates_ports_and_frequency_witness :
  (exists msg, __init__ [PyNetwork Toy.ntwk_a; PyNetwork Toy.ntwk_2port] None Toy.cls
               = (Raise (ValueError msg), Toy.cls)) /\
  (exists msg, __init__ [PyNetwork Toy.ntwk_a; PyNetwork Toy.ntwk_c] None Toy.cls
               = (Raise (ValueError msg), Toy.cls)) /\
  (exists cls', __init__ [PyNetwork Toy.ntwk_a; PyNetwork Toy.ntwk_b] (Some "set") Toy.cls
                = (Ok Toy.measurements, cls')).
Proof.
  split; [|split].
  - apply (proj1 (init_validates_ports_and_frequency
                    Toy.ntwk_a [Toy.ntwk_2port] None Toy.cls)).
    exists Toy.ntwk_a, Toy.ntwk_2port.
    split; [by left|]. split; [by right; left|]. vm_compute. discriminate.
  - apply (proj1 (proj2 (init_validates_ports_and_frequency
                           Toy.ntwk_a [Toy.ntwk_c] None Toy.cls))).
    exists Toy.ntwk_c. split; [by right; left | reflexivity].
  - apply (proj2 (proj2 (init_validates_ports_and_frequency
                           Toy.ntwk_a [Toy.ntwk_b] (Some "set") Toy.cls))).
    + intros b Hb. apply elem_of_cons in Hb as [->|Hb]; [reflexivity|].
      apply elem_of_cons in Hb as [->|Hb]; [reflexivity|]. by apply elem_of_nil in Hb.
    + intros b Hb. apply elem_of_cons in Hb as [->|Hb]; [reflexivity|].
      apply elem_of_cons in Hb as [->|Hb]; [reflexivity|]. by apply elem_of_nil in Hb.
Defined.

(** A collection that starts with the Duck is answered with TypeError. *)
Lemma init_type_check_first_only_witness :
  exists msg, (__init__ [PyObject Toy.duck; PyNetwork Toy.ntwk_a] None Toy.cls).1
              = Raise (TypeError msg).
Proof.
  apply (proj1 (init_type_check_first_only
                  [PyObject Toy.duck; PyNetwork Toy.ntwk_a] None Toy.cls)).
  exists (PyObject Toy.duck), [PyNetwork Toy.ntwk_a]. split; reflexivity.
Defined.

(** [mean_s] of the two measurements. *)
Lemma reduction_property_value_witness :
  exists first rest,
    ntwk_set Toy.measurements = PyNetwork first :: rest /\
    getattribute Toy.measurements "mean_s" Toy.cls
    = (stacked_reduction first (ntwk_set Toy.measurements) (call_axis0 npy_mean)
         "s" (name Toy.measurements), Toy.cls).
Proof.
  apply (reduction_property_value Toy.measurements Toy.cls npy_mean "s").
  - exact measurements_constructed.
  - by left.
  - by left.
Defined.

Example mean_s_of_measurements :
  (getattribute Toy.measurements "mean_s" Toy.cls).1
  = Ok (PyNetwork {| Toy.nports := 1; Toy.freq := [10; 20; 30];
                     Toy.s := [2; 1; -1]; Toy.label := Some "set" |}).
Proof. vm_compute. reflexivity. Qed.

(** The archive of the miniature gives a set without a name, whatever
    accompanies the file name. *)
Lemma from_zip_ignores_arguments_witness :
  exists self cls',
    from_zip "myzip.zip" [PyStr "batch"] [("name", PyStr "batch")] Toy.cls
    = (Ok self, cls') /\ name self = None.
Proof.
  assert (Hzip : from_zip "myzip.zip" [PyStr "batch"] [("name", PyStr "batch")] Toy.cls
                 = (Ok {| ntwk_set :=
                            [PyNetwork {| Toy.nports := 1; Toy.freq := [0; 1; 2];
                                          Toy.s := [1; 2; 3]; Toy.label := None |};
                             PyNetwork {| Toy.nports := 1; Toy.freq := [0; 1; 2];
                                          Toy.s := [3; 4; 5]; Toy.label := None |}];
                          name := None |}, populated Toy.cls)).
  { eapply from_zip_accepted; [reflexivity | reflexivity | accept_collection]. }
  eexists _, _. split; [exact Hzip|].
  exact (proj2 (from_zip_ignores_arguments "myzip.zip"
                  [PyStr "batch"] [("name", PyStr "batch")] Toy.cls) _ _ Hzip).
Defined.

Ltac by_position k Hx :=
  destruct k as [|[|k]]; simpl in Hx; try discriminate Hx; injection Hx as <-.

(** Adding the set of measurements to itself, member by member, and to a set
    of another length. *)
Lemma operator_on_two_sets_witness :
  operator_func "__add__" Toy.measurements (PyOfSet Toy.measurements) Toy.cls
  = (Ok (PyNetworkSet
           [PyNetwork {| Toy.nports := 1; Toy.freq := [10; 20; 30];
                         Toy.s := [2; -4; 6]; Toy.label := Some "a" |};
            PyNetwork {| Toy.nports := 1; Toy.freq := [10; 20; 30];
                         Toy.s := [6; 8; -10]; Toy.label := Some "b" |}] None),
     Toy.cls)
  /\ exists msg,
       operator_func "__add__" Toy.measurements
         (PyOfSet {| ntwk_set := [PyNetwork Toy.ntwk_a]; name := None |}) Toy.cls
       = (Raise (ValueError msg), Toy.cls).
Proof.
  assert (Hop : "__add__" ∈ operator_names) by (repeat constructor).
  split.
  - apply (proj2 (proj2 (operator_on_two_sets Toy.measurements Toy.measurements
                           Toy.cls "__add__" Hop measurements_constructed))).
    + reflexivity.
    + reflexivity.
    + intros k x y Hx Hy. by_position k Hx; simpl in Hy; injection Hy as <-;
        eexists; split; reflexivity.
    + accept_collection.
  - apply (proj1 (proj2 (operator_on_two_sets Toy.measurements
                           {| ntwk_set := [PyNetwork Toy.ntwk_a]; name := None |}
                           Toy.cls "__add__" Hop measurements_constructed))).
    simpl. lia.
Defined.

(** Subtracting one Network from every member, and handing [None] to the
    operator. *)
Lemma operator_on_single_operand_witness :
  operator_func "__sub__" Toy.measurements (PyNetwork Toy.ntwk_a) Toy.cls
  = (Ok (PyNetworkSet
           [PyNetwork {| Toy.nports := 1; Toy.freq := [10; 20; 30];
                         Toy.s := [0; 0; 0]; Toy.label := Some "a" |};
            PyNetwork {| Toy.nports := 1; Toy.freq := [10; 20; 30];
                         Toy.s := [2; 6; -8]; Toy.label := Some "b" |}] None),
     Toy.cls)
  /\ exists msg,
       operator_func "__sub__" Toy.measurements PyNone Toy.cls
       = (Raise (TypeError msg), Toy.cls).
Proof.
  assert (Hop : "__sub__" ∈ operator_names) by (repeat constructor).
  split.
  - apply (proj1 (proj2 (operator_on_single_operand Toy.measurements
                           Toy.cls "__sub__" Hop measurements_constructed))).
    + reflexivity.
    + intros k x Hx. by_position k Hx; eexists; split; reflexivity.
    + accept_collection.
  - apply (proj2 (proj2 (operator_on_single_operand Toy.measurements
                           Toy.cls "__sub__" Hop measurements_constructed)));
      discriminate.
Defined.

(** [interpolate] answers with Networks and gives a new set;
    [write_touchstone] answers with [None] and gives the plain list. *)
Lemma element_wise_method_first_result_witness :
  element_wise_method Toy.measurements "interpolate" [] [] Toy.cls
  = (Ok (PyNetworkSet [PyNetwork Toy.ntwk_a; PyNetwork Toy.ntwk_b] None), Toy.cls)
  /\
  element_wise_method Toy.measurements "write_touchstone" [] [] Toy.cls
  = (Ok (PyList [PyNone; PyNone]), Toy.cls).
Proof.
  split.
  - assert (Hm : "interpolate" ∈ element_wise_names) by (repeat constructor).
    destruct (proj2 (proj2 (element_wise_method_first_result Toy.measurements Toy.cls
                              "interpolate" [] [] measurements_constructed Hm))
                [PyNetwork Toy.ntwk_a; PyNetwork Toy.ntwk_b] eq_refl)
      as (out0 & rest & _ & _ & Hset & _).
    apply Hset. accept_collection.
  - assert (Hm : "write_touchstone" ∈ element_wise_names) by (repeat constructor).
    destruct (proj2 (proj2 (element_wise_method_first_result Toy.measurements Toy.cls
                              "write_touchstone" [] [] measurements_constructed Hm))
                [PyNone; PyNone] eq_refl)
      as (out0 & rest & [= <- <-] & Hlist & _).
    by apply Hlist.
Defined.

(** The triplet for [s] with the default of three deviations. *)
Lemma uncertainty_ntwk_triplet_value_witness :
  uncertainty_ntwk_triplet Toy.measurements "s" None Toy.cls
  = (Ok (PyNetwork {| Toy.nports := 1; Toy.freq := [10; 20; 30];
                      Toy.s := [2; 1; -1]; Toy.label := Some "set" |},
         PyNetwork {| Toy.nports := 1; Toy.freq := [10; 20; 30];
                      Toy.s := [-1; -8; -13]; Toy.label := Some "set" |},
         PyNetwork {| Toy.nports := 1; Toy.freq := [10; 20; 30];
                      Toy.s := [5; 10; 11]; Toy.label := Some "set" |}),
     Toy.cls).
Proof.
  assert (Ha : "s" ∈ network_property_names) by (repeat constructor).
  refine (proj2 (proj2 (uncertainty_ntwk_triplet_value Toy.measurements Toy.cls "s" None
                          _ _ _ _ _ measurements_constructed Ha _ _ _ _ _)));
    reflexivity.
Defined.

(** The namespace written by a construction on the miniature. *)
Lemma registry_written_by_constructor_witness :
  exists cls',
    __init__ (ntwk_set Toy.measurements) (name Toy.measurements) at_class_definition
    = (Ok Toy.measurements, cls') /\
    cls' !! "std_s_mag" = Some (FuncOnProperty npy_std "s_mag") /\
    cls' !! "ntwk_set" = None.
Proof.
  assert (Hinit : __init__ (ntwk_set Toy.measurements) (name Toy.measurements)
                    at_class_definition = (Ok Toy.measurements, Toy.cls)).
  { apply init_accepted. accept_collection. }
  exists Toy.cls. split; [exact Hinit|].
  destruct (proj1 (proj2 (registry_written_by_constructor
                            (ntwk_set Toy.measurements) (name Toy.measurements)
                            at_class_definition)) _ _ Hinit) as [Hgen Hother].
  split.
  - apply Hgen. unfold generated_members. simpl. repeat constructor.
  - rewrite Hother; [reflexivity|].
    unfold generated_members. simpl.
    repeat (apply not_elem_of_cons; split; [discriminate|]). apply not_elem_of_nil.
Defined.

(** ** Averaging magnitudes before converting to dB *)

Section IdealArithmetic.

Import Ideal.
Local Open Scope R_scope.

Lemma Cabs_nonneg (z : complex) : 0 <= Cabs z.
Proof. apply sqrt_pos. Qed.

Lemma Cabs_of_nonneg_real (z : complex) : nonneg_real z -> Cabs z = z.1.
Proof.
  destruct z as [x y]. intros [Hy Hx]. simpl in *. subst y. unfold Cabs. simpl.
  replace (x * x + 0 * 0) with (x * x) by ring. by apply sqrt_square.
Qed.

Lemma zip_with_Cadd_nonneg (a b : list complex) :
  Forall nonneg_real a -> Forall nonneg_real b ->
  Forall nonneg_real (zip_with Cadd a b).
Proof.
  intros Ha; revert b; induction Ha as [|x a [Hx2 Hx1] _ IH]; intros b Hb; simpl.
  - constructor.
  - destruct Hb as [|y b [Hy2 Hy1] Hb]; constructor; [|by apply IH].
    split; simpl; [rewrite Hx2, Hy2; ring | lra].
Qed.

Lemma column_sums_nonneg (rows : list (list complex)) :
  Forall (Forall nonneg_real) rows -> Forall nonneg_real (column_sums rows).
Proof.
  destruct 1 as [|r rows Hr Hrows]; simpl; [constructor|].
  revert r Hr; induction Hrows as [|r' rows Hr' _ IH]; intros r Hr; simpl;
    [assumption|].
  apply IH. by apply zip_with_Cadd_nonneg.
Qed.

Lemma mean_nonneg (rows : list (list complex)) (reduced : list complex) :
  Forall (Forall nonneg_real) rows -> mean rows = Ok reduced ->
  Forall nonneg_real reduced.
Proof.
  intros Hrows. unfold mean. destruct (same_shape rows); [|discriminate].
  intros [= <-]. apply Forall_fmap.
  eapply Forall_impl; [by apply column_sums_nonneg|].
  intros [x y] [Hy Hx]; simpl in *. subst y.
  assert (Hk : 0 <= / INR (length rows)).
  { destruct rows as [|r rows]; simpl length.
    - simpl. rewrite Rinv_0. lra.
    - left. apply Rinv_0_lt_compat, lt_0_INR. lia. }
  split; simpl; [ring | by apply Rmult_le_pos].
Qed.

Lemma magnitudes_nonneg (l : list value) (rows : list (list complex)) :
  mapR (get_attribute "s_mag") l = Ok rows -> Forall (Forall nonneg_real) rows.
Proof.
  intros Hrows. apply mapR_Ok_Forall2 in Hrows.
  induction Hrows as [|x row l rows Hx _ IH]; constructor; [|assumption].
  destruct x as [n| | | | | |[]]; try discriminate. simpl in Hx. injection Hx as <-.
  apply Forall_fmap, Forall_forall. intros z _. split; [reflexivity | apply Cabs_nonneg].
Qed.

(** The samples of [mean_s_mag] are non-negative reals: averaged magnitudes. *)
Lemma mean_s_mag_nonneg (l : list value) (nm : option string) (m : Network) :
  fon l npy_mean "s_mag" nm = Ok m -> Forall nonneg_real (s m).
Proof.
  unfold fon, func_on_networks. intros H.
  apply bindR_Ok_inv in H as (rows & Hrows & H).
  apply bindR_Ok_inv in H as (ntwk0 & _ & H).
  apply bindR_Ok_inv in H as (new_ntwk & _ & H).
  apply bindR_Ok_inv in H as (reduced & Hmean & H).
  assert (Hnn : Forall nonneg_real reduced).
  { eapply mean_nonneg; [|exact Hmean]. by eapply magnitudes_nonneg. }
  destruct nm; injection H as <-; exact Hnn.
Qed.

Lemma ln_10_pos : 0 < ln 10.
Proof. rewrite <- ln_1. apply ln_increasing; lra. Qed.

Lemma magnitude_2_db_1 : magnitude_2_db 1 = 0.
Proof. unfold magnitude_2_db, log10. rewrite ln_1. field. pose proof ln_10_pos. lra. Qed.

Lemma magnitude_2_db_100 : magnitude_2_db 100 = 40.
Proof.
  unfold magnitude_2_db, log10. replace 100 with (10 * 10) by lra.
  rewrite ln_mult by lra. field. pose proof ln_10_pos. lra.
Qed.

(** Converting the mean magnitude 50.5 gives about 34 dB, not 20 dB. *)
Lemma magnitude_2_db_of_mean : magnitude_2_db (101 / 2) = 20 -> False.
Proof.
  unfold magnitude_2_db, log10. intros H. pose proof ln_10_pos as Hpos.
  assert (Hln : ln (101 / 2) = ln 10).
  { apply (Rmult_eq_reg_l (20 / ln 10)).
    - replace (20 / ln 10 * ln (101 / 2)) with (20 * (ln (101 / 2) / ln 10)) by (field; lra).
      rewrite H. field. lra.
    - apply Rmult_integral_contrapositive_currified; [lra|].
      apply Rinv_neq_0_compat. lra. }
  apply ln_inv in Hln; lra.
Qed.

Lemma ensemble_constructed : constructed ensemble cls.
Proof. exists at_class_definition. apply init_accepted. accept_collection. Qed.

Lemma Cabs_of_real (x : R) : 0 <= x -> Cabs (of_real x) = x.
Proof. intros Hx. by apply (Cabs_of_nonneg_real (of_real x)). Qed.

(** C1.  On every constructed NetworkSet, [mean_s_db] is the dB conversion of
    [mean_s_mag]: it returns the Network [mean_s_mag] returns, with each
    sample, an averaged magnitude, replaced by [magnitude_2_db] of it, and it
    raises what [mean_s_mag] raises.  For the ensemble of two members with
    magnitudes 1 and 100 this gives [magnitude_2_db 50.5], whereas averaging
    the members' dB values gives 20, and the two differ. *)
Theorem mean_s_db_converts_the_mean_magnitude :
  (forall (self : NetworkSet Network Empty_set) c (m : Network),
     constructed self c ->
     getattribute self "mean_s_mag" c = (Ok (PyNetwork m), c) ->
     mean_s_db self c
     = (Ok (PyNetwork (set_s m (map (fun z => of_real (magnitude_2_db z.1)) (s m)))), c))
  /\
  (forall (self : NetworkSet Network Empty_set) c e,
     constructed self c ->
     getattribute self "mean_s_mag" c = (Raise e, c) ->
     mean_s_db self c = (Raise e, c))
  /\
  (exists a b : Network,
     constructed ensemble cls /\
     mean_s_db ensemble cls = (Ok (PyNetwork a), cls) /\
     fon (ntwk_set ensemble) npy_mean "s_db" (name ensemble) = Ok b /\
     s a = [of_real (magnitude_2_db (101 / 2))] /\
     s b = [of_real 20] /\
     (s a = s b -> False)).
Proof.
  assert (Hbound : forall (self : NetworkSet Network Empty_set) c,
             constructed self c ->
             getattribute self "mean_s_mag" c
             = (bindR (fon (ntwk_set self) npy_mean "s_mag" (name self))
                      (fun ntwk => Ok (PyNetwork ntwk)), c)).
  { intros self c Hc. apply getattribute_property.
    destruct (constructed_inv _ _ Hc) as [_ <-].
    apply (reduction_property_bound c npy_mean "s_mag");
      [by left | unfold network_property_names; repeat constructor]. }
  split; [|split].
  - intros self c m Hc Hget. rewrite Hbound in Hget by assumption.
    rewrite mean_s_db_unfold by assumption.
    destruct (fon (ntwk_set self) npy_mean "s_mag" (name self)) as [m'|] eqn:Hfon;
      [|discriminate].
    injection Hget as ->. simpl. do 4 f_equal.
    apply map_ext_Forall.
    eapply Forall_impl; [exact (mean_s_mag_nonneg _ _ _ Hfon)|].
    intros z Hz. simpl. by rewrite Cabs_of_nonneg_real.
  - intros self c e Hc Hget. rewrite Hbound in Hget by assumption.
    rewrite mean_s_db_unfold by assumption.
    destruct (fon (ntwk_set self) npy_mean "s_mag" (name self)); [discriminate|].
    injection Hget as ->. reflexivity.
  - eexists _, _. split; [exact ensemble_constructed|].
    split; [rewrite mean_s_db_unfold by exact ensemble_constructed; reflexivity|].
    split; [reflexivity|].
    assert (Ha : [of_real (magnitude_2_db
                     (Cabs (Cscale (/ INR 2)
                              (Cadd (of_real (Cabs (of_real 1)))
                                    (of_real (Cabs (of_real 100)))))))]
                 = [of_real (magnitude_2_db (101 / 2))]).
    { rewrite !Cabs_of_real by lra.
      replace (Cscale (/ INR 2) (Cadd (of_real 1) (of_real 100)))
        with (of_real (101 / 2)).
      - rewrite Cabs_of_real by lra. reflexivity.
      - unfold Cscale, Cadd, of_real. simpl. f_equal; lra. }
    assert (Hb : [Cscale (/ INR 2)
                    (Cadd (of_real (magnitude_2_db (Cabs (of_real 1))))
                          (of_real (magnitude_2_db (Cabs (of_real 100)))))]
                 = [of_real 20]).
    { rewrite !Cabs_of_real by lra.
      rewrite magnitude_2_db_1, magnitude_2_db_100.
      unfold Cscale, Cadd, of_real. simpl. do 2 f_equal; lra. }
    match goal with
    | |- ?sa = _ /\ ?sb = _ /\ _ =>
        assert (Hsa : sa = [of_real (magnitude_2_db (101 / 2))]) by exact Ha;
        assert (Hsb : sb = [of_real 20]) by exact Hb
    end.
    split; [exact Hsa|]. split; [exact Hsb|].
    rewrite Hsa, Hsb. intros [= Heq]. by apply magnitude_2_db_of_mean.
Qed.

End IdealArithmetic.

(** ** Where the design document and the code part ways *)

(** The class statement leaves [mean_s] unbound; the first construction binds
    it.  The namespace is therefore written by constructing an instance. *)
Lemma constructor_writes_class_namespace :
  (at_class_definition : gmap string (member (list Z))) !! "mean_s" = None /\
  (__init__ [PyNetwork Toy.ntwk_a] None at_class_definition).2 !! "mean_s"
  = Some (FuncOnProperty npy_mean "s").
Proof.
  split; [reflexivity|].
  rewrite init_accepted by accept_collection.
  simpl snd. rewrite populated_lookup. vm_compute. reflexivity.
Qed.

(** A constructed set whose members answer [interpolate] with a Network and
    with [None]: not every result is a Network, yet the plain list is not
    what comes back; the results went to the constructor, which raised. *)
Lemma element_wise_method_mixed_results :
  constructed Toy.mixed Toy.cls /\
  mapR (fun ntwk => call_method "interpolate" ntwk [] []) (ntwk_set Toy.mixed)
  = Ok [PyNetwork Toy.ntwk_a; PyNone] /\
  element_wise_method Toy.mixed "interpolate" [] [] Toy.cls
  = (Raise (AttributeError "number_of_ports"), Toy.cls).
Proof.
  split; [exact mixed_constructed|]. split; [reflexivity|].
  unfold element_wise_method, bindM, liftR.
  change (mapR (fun ntwk => call_method "interpolate" ntwk [] []) (ntwk_set Toy.mixed))
    with (Ok [PyNetwork Toy.ntwk_a; @PyNone Toy.Network Toy.Duck]).
  cbv beta iota. unfold getitem. simpl lookup. cbv beta iota.
  change (isinstance_Network (@PyNetwork Toy.Network Toy.Duck Toy.ntwk_a)) with true.
  cbv beta iota. rewrite init_unfold_Network. reflexivity.
Qed.

(** * Further properties of the code *)

Ltac listed_cases H :=
  repeat (apply elem_of_cons in H as [H|H]; [subst|]);
  try (by apply elem_of_nil in H).

Lemma mapR_elem_Raise {A B} (f : A -> result B) (l : list A) (x : A) (e : exn) :
  x ∈ l -> f x = Raise e -> exists e', mapR f l = Raise e'.
Proof.
  induction l as [|y l IH]; intros Hin Hx; [by apply elem_of_nil in Hin|].
  simpl. destruct (f y) as [b|e'] eqn:Hy; simpl; [|eauto].
  apply elem_of_cons in Hin as [->|Hin]; [congruence|].
  destruct (IH Hin Hx) as [e' ->]. simpl. eauto.
Qed.

Lemma mapR_fmap {A B C} (f : B -> result C) (g : A -> B) (l : list A) :
  mapR f (map g l) = mapR (fun x => f (g x)) l.
Proof. induction l as [|x l IH]; simpl; [reflexivity|]. by rewrite IH. Qed.

Section MoreProperties.

Context {Frequency Array Scalar Network Obj FileObj ZipFile : Type}.
Context `{!Collaborator Frequency Array Scalar Network Obj FileObj ZipFile}.

Implicit Types (l : list (pyval Network Obj)) (cls : gmap string (member Array)).
Implicit Types (self : NetworkSet Network Obj) (nm : option string).

(** ** Length and items *)

(** X1.  A constructed set has the length of the collection it was built from,
    which is at least one, and [self[k]] is the k-th element of that
    collection; an index past the end raises IndexError. *)
Theorem len_and_items_after_init l nm cls self cls' :
  __init__ l nm cls = (Ok self, cls') ->
  __len__ self = length l /\
  (0 < __len__ self)%nat /\
  (forall (k : nat) x, l !! k = Some x -> __getitem__ self k = Ok x) /\
  (forall k : nat, (length l <= k)%nat -> __getitem__ self k = Raise IndexError).
Proof.
  intros Hinit. apply init_Ok_inv in Hinit as (Hacc & -> & _).
  unfold __len__, __getitem__, getitem. simpl.
  split; [reflexivity|]. split; [|split].
  - destruct Hacc as (n0 & rest & -> & _). simpl. lia.
  - intros k x Hk. by rewrite Hk.
  - intros k Hk. by rewrite lookup_ge_None_2.
Qed.

(** ** What the constructor accepts and how it fails *)

(** X2.  The constructor returns an instance exactly for the collections whose
    first element is a Network and whose elements, Networks or not, all
    expose the port count of the first and a frequency equal to the first
    one's. *)
Theorem init_succeeds_iff_accepted l nm cls :
  (exists self cls', __init__ l nm cls = (Ok self, cls')) <-> accepted l.
Proof.
  split.
  - intros (self & cls' & Hinit). by apply init_Ok_inv in Hinit as (Hacc & _).
  - intros Hacc. eexists _, _. by apply init_accepted.
Qed.

(** X3.  The checks run in a fixed order.  An empty collection raises IndexError.
    Behind a first element that is a Network, an element without a port
    count raises AttributeError before any comparison is made, and differing
    port counts raise the port-count ValueError whatever the frequencies
    are; an element without a frequency raises AttributeError only once the
    port counts agree. *)
Theorem init_error_order (ntwk0 : Network) (rest : list (pyval Network Obj)) nm cls :
  __init__ ([] : list (pyval Network Obj)) nm cls = (Raise IndexError, cls)
  /\
  (forall x e,
     x ∈ PyNetwork ntwk0 :: rest -> get_number_of_ports x = Raise e ->
     __init__ (PyNetwork ntwk0 :: rest) nm cls
     = (Raise (AttributeError "number_of_ports"), cls))
  /\
  (forall ports p q,
     mapR get_number_of_ports (PyNetwork ntwk0 :: rest) = Ok ports ->
     p ∈ ports -> q ∈ ports -> p <> q ->
     __init__ (PyNetwork ntwk0 :: rest) nm cls
     = (Raise (ValueError
          "All elements in list of Networks must have same number of ports"), cls))
  /\
  (forall x e,
     Forall (fun y => get_number_of_ports y = Ok (number_of_ports ntwk0))
            (PyNetwork ntwk0 :: rest) ->
     x ∈ PyNetwork ntwk0 :: rest -> get_frequency x = Raise e ->
     __init__ (PyNetwork ntwk0 :: rest) nm cls
     = (Raise (AttributeError "frequency"), cls)).
Proof.
  split; [reflexivity|]. split; [|split].
  - intros x e Hin Hx. rewrite init_unfold_Network.
    destruct (mapR_elem_Raise _ _ _ _ Hin Hx) as [e' He']. rewrite He'.
    apply mapR_Raise_elem in He' as (y & _ & Hy).
    by rewrite (get_number_of_ports_Raise _ _ Hy).
  - intros ports p q Hports Hp Hq Hne. rewrite init_unfold_Network, Hports.
    by rewrite (set_of_ports_large ports p q).
  - intros x e Hall Hin Hx. rewrite init_unfold_Network.
    destruct (mapR_Forall_intro get_number_of_ports
                (fun p => p = number_of_ports ntwk0) (PyNetwork ntwk0 :: rest))
      as (ports & -> & Hp).
    { eapply Forall_impl; [exact Hall|]. intros y Hy.
      eexists; split; [exact Hy | reflexivity]. }
    assert (Hsmall : (1 <? size (list_to_set ports : gset Z))%nat = false).
    { destruct ports as [|p ports]; [reflexivity|].
      apply set_of_ports_small. inversion Hp; subst. assumption. }
    rewrite Hsmall.
    match goal with |- context [mapR ?f (PyNetwork ntwk0 :: rest)] =>
      destruct (mapR_elem_Raise f (PyNetwork ntwk0 :: rest) x e Hin) as [e' He']
    end.
    { by rewrite Hx. }
    rewrite He'. apply mapR_Raise_elem in He' as (y & _ & Hy).
    destruct (get_frequency y) as [f|e''] eqn:Hf; simpl in Hy; [discriminate|].
    injection Hy as <-. by rewrite (get_frequency_Raise _ _ Hf).
Qed.

(** ** Members written in the class body *)

Lemma class_body_name_not_generated (k : string) :
  k ∈ class_body_methods \/ k ∈ class_body_properties ->
  last_binding k (generated_members (Array := Array)) = None.
Proof.
  unfold class_body_methods, class_body_properties.
  intros [Hk|Hk]; listed_cases Hk; vm_compute; reflexivity.
Qed.

Lemma getattribute_bound_method self cls (k : string) :
  k ∈ class_body_methods -> cls !! k = None ->
  getattribute self k cls = (Ok (PyMethod k), cls).
Proof.
  intros Hk Hnone. unfold getattribute, getattribute_generated, bindM, class_lookup.
  rewrite Hnone. cbv beta iota.
  unfold class_body_methods in Hk. listed_cases Hk; simpl; by rewrite Hnone.
Qed.

(** X4.  The constructor never rebinds a name written in the class body: the
    generated names are all different from them.  After a construction that
    starts from the class as defined, [mean_s_db], [std_s_db] and [inv] are
    therefore still the properties of the class body, and every method of
    the class body still resolves to its bound method. *)
Theorem class_body_members_survive_construction l nm self cls cls' :
  __init__ l nm cls = (Ok self, cls') ->
  (forall k : string,
     k ∈ class_body_methods \/ k ∈ class_body_properties -> cls' !! k = cls !! k)
  /\
  (cls = at_class_definition ->
   getattribute self "mean_s_db" cls' = mean_s_db self cls' /\
   getattribute self "std_s_db" cls' = std_s_db self cls' /\
   getattribute self "inv" cls' = inv self cls' /\
   (forall k : string, k ∈ class_body_methods ->
      getattribute self k cls' = (Ok (PyMethod k), cls'))).
Proof.
  intros Hinit. apply init_Ok_inv in Hinit as (_ & _ & ->).
  assert (Hkept : forall k : string,
             k ∈ class_body_methods \/ k ∈ class_body_properties ->
             populated cls !! k = cls !! k).
  { intros k Hk. rewrite populated_lookup.
    by rewrite class_body_name_not_generated. }
  split; [exact Hkept|]. intros ->.
  assert (Hnone : forall k : string,
             k ∈ class_body_methods \/ k ∈ class_body_properties ->
             populated (at_class_definition : gmap string (member Array)) !! k = None).
  { intros k Hk. rewrite Hkept by assumption. apply lookup_empty. }
  split; [|split; [|split]].
  - unfold getattribute, bindM, class_lookup.
    rewrite Hnone; [reflexivity|]. right. unfold class_body_properties. by left.
  - unfold getattribute, bindM, class_lookup.
    rewrite Hnone; [reflexivity|]. right. unfold class_body_properties. by right; left.
  - unfold getattribute, bindM, class_lookup.
    rewrite Hnone; [reflexivity|].
    right. unfold class_body_properties. by right; right; left.
  - intros k Hk. apply getattribute_bound_method; [assumption|].
    apply Hnone. by left.
Qed.

(** ** The class namespace after the first construction *)

Lemma init_state_constructed self cls l nm :
  constructed self cls -> (__init__ l nm cls).2 = cls.
Proof.
  intros Hc. destruct (constructed_inv _ _ Hc) as [_ Hcls].
  destruct (__init__ l nm cls) as [[new|e] cls'] eqn:Hinit; simpl.
  - apply init_Ok_inv in Hinit as (_ & _ & ->). exact Hcls.
  - by apply init_Raise_state in Hinit.
Qed.

Lemma construct_state_constructed self cls l nm :
  constructed self cls ->
  ((new <- __init__ l nm ;; retM (PyOfSet new)) cls).2 = cls.
Proof.
  intros Hc. unfold bindM, retM.
  pose proof (init_state_constructed self cls l nm Hc) as Hst.
  destruct (__init__ l nm cls) as [[new|e] cls']; exact Hst.
Qed.

Lemma getattribute_generated_state self cls (attr : string) :
  (getattribute_generated self attr cls).2 = cls.
Proof.
  unfold getattribute_generated, bindM, class_lookup, liftR, retM, raiseM.
  destruct (cls !! attr) as [[func pname| | |]|]; cbv beta iota;
    repeat match goal with
           | |- context [match ?c with _ => _ end] => destruct c
           | |- context [if ?c then _ else _] => destruct c
           end; reflexivity.
Qed.

Lemma mean_s_db_state self cls : (mean_s_db self cls).2 = cls.
Proof.
  unfold mean_s_db, bindM.
  pose proof (getattribute_generated_state self cls "mean_s_mag") as Hst.
  destruct (getattribute_generated self "mean_s_mag" cls) as [[v|e] cls']; simpl in Hst;
    subst cls'; [|reflexivity].
  unfold liftR. destruct (get_attribute "s_db" v); [|reflexivity].
  by destruct (set_s v a).
Qed.

Lemma std_s_db_state self cls : (std_s_db self cls).2 = cls.
Proof.
  unfold std_s_db, bindM.
  pose proof (getattribute_generated_state self cls "std_s_mag") as Hst.
  destruct (getattribute_generated self "std_s_mag" cls) as [[v|e] cls']; simpl in Hst;
    subst cls'; [|reflexivity].
  unfold liftR. destruct (get_attribute "s_db" v); [|reflexivity].
  by destruct (set_s v a).
Qed.

Lemma inv_state self cls : constructed self cls -> (inv self cls).2 = cls.
Proof.
  intros Hc. unfold inv. unfold bindM at 1. unfold liftR.
  destruct (mapR get_inv (ntwk_set self)) as [ntwks|e]; [|reflexivity].
  by apply (construct_state_constructed self).
Qed.

Lemma getattribute_state self cls (attr : string) :
  constructed self cls -> (getattribute self attr cls).2 = cls.
Proof.
  intros Hc. unfold getattribute, bindM, class_lookup.
  destruct (cls !! attr) eqn:Hm; cbv beta iota.
  - apply getattribute_generated_state.
  - destruct (String.eqb attr "mean_s_db"); [apply mean_s_db_state|].
    destruct (String.eqb attr "std_s_db"); [apply std_s_db_state|].
    destruct (String.eqb attr "inv"); [by apply inv_state|].
    apply getattribute_generated_state.
Qed.

(** X5.  Once a NetworkSet has been constructed, nothing the class offers changes
    the class namespace again: attribute look-ups, the operators, the
    element-wise methods, [inv], the uncertainty triplet and further
    constructions all leave it as they found it, whether they return or
    raise. *)
Theorem namespace_stable_after_construction self cls :
  constructed self cls ->
  (forall l nm, (__init__ l nm cls).2 = cls) /\
  (forall attr : string, (getattribute self attr cls).2 = cls) /\
  (forall (op : string) other, (operator_func op self other cls).2 = cls) /\
  (forall (method : string) a kw, (element_wise_method self method a kw cls).2 = cls) /\
  (forall (attribute : string) n, (uncertainty_ntwk_triplet self attribute n cls).2 = cls) /\
  (forall (zip_file_name : string) a kw, (from_zip zip_file_name a kw cls).2 = cls).
Proof.
  intros Hc. split; [|split; [|split; [|split; [|split]]]].
  - intros l nm. by apply (init_state_constructed self).
  - intros attr. by apply getattribute_state.
  - intros op other. unfold operator_func.
    destruct other as [n|other_set other_name| | | | |]; try reflexivity.
    + unfold bindM at 1. unfold liftR.
      destruct (mapR _ (ntwk_set self)) as [out|e]; [|reflexivity].
      by apply (construct_state_constructed self).
    + destruct (negb _); [reflexivity|].
      unfold bindM at 1. unfold liftR.
      destruct (mapR _ (range (__len__ self))) as [out|e]; [|reflexivity].
      by apply (construct_state_constructed self).
  - intros method a kw. unfold element_wise_method.
    unfold bindM at 1. unfold liftR.
    destruct (mapR _ (ntwk_set self)) as [output|e]; [|reflexivity].
    unfold bindM at 1.
    destruct (getitem output 0) as [out0|e]; [|reflexivity].
    destruct (isinstance_Network out0); [|reflexivity].
    by apply (construct_state_constructed self).
  - intros attribute n. unfold uncertainty_ntwk_triplet, bindM.
    pose proof (getattribute_state self cls ("mean_" ++ attribute) Hc) as Hm.
    destruct (getattribute self ("mean_" ++ attribute) cls) as [[m|e] c1];
      simpl in Hm; subst c1; [|reflexivity].
    pose proof (getattribute_state self cls ("std_" ++ attribute) Hc) as Hs.
    destruct (getattribute self ("std_" ++ attribute) cls) as [[sd|e] c2];
      simpl in Hs; subst c2; [|reflexivity].
    unfold liftR, retM.
    repeat match goal with
           | |- context [match ?c with _ => _ end] => destruct c
           end; reflexivity.
  - intros zip_file_name a kw. unfold from_zip, bindM, liftR.
    destruct (zipfile_ZipFile zip_file_name) as [z|e]; [|reflexivity].
    destruct (mapR _ (namelist z)) as [ntwks|e]; [|reflexivity].
    by apply (init_state_constructed self).
Qed.

(** ** func_on_networks and set_wise_function *)

Lemma get_attribute_Raise (attribute : string) (x : pyval Network Obj) e :
  get_attribute attribute x = Raise e -> e = AttributeError attribute.
Proof.
  destruct x; simpl; try congruence.
  - destruct (Network_attribute attribute ntwk); simpl; congruence.
  - destruct (Obj_attribute attribute o); simpl; congruence.
Qed.

(** X6.  [func_on_networks] reads the attribute of every member before anything
    else: a member without it raises AttributeError for that attribute,
    whatever the reduction is.  An empty list raises IndexError, an exception
    of the reduction propagates, and without a name the result keeps the name
    of the copy of the first member. *)
Theorem func_on_networks_edges (func : callable Array) (attribute : string) nm :
  fon ([] : list (pyval Network Obj)) func attribute nm = Raise IndexError
  /\
  (forall l x e,
     x ∈ l -> get_attribute attribute x = Raise e ->
     fon l func attribute nm = Raise (AttributeError attribute))
  /\
  (forall (first : Network) rest stacked e,
     mapR (get_attribute attribute) (PyNetwork first :: rest) = Ok stacked ->
     call_axis0 func stacked = Raise e ->
     fon (PyNetwork first :: rest) func attribute nm = Raise e)
  /\
  (forall (first : Network) rest stacked reduced,
     mapR (get_attribute attribute) (PyNetwork first :: rest) = Ok stacked ->
     call_axis0 func stacked = Ok reduced ->
     fon (PyNetwork first :: rest) func attribute None
     = Ok (Network_set_s (Network_copy first) reduced)).
Proof.
  split; [reflexivity|]. split; [|split].
  - intros l x e Hin Hx. unfold fon, func_on_networks.
    destruct (mapR_elem_Raise _ _ _ _ Hin Hx) as [e' He']. rewrite He'.
    apply mapR_Raise_elem in He' as (y & _ & Hy).
    by rewrite (get_attribute_Raise _ _ _ Hy).
  - intros first rest stacked e Hs He. unfold fon, func_on_networks.
    rewrite Hs. simpl. by rewrite He.
  - intros first rest stacked reduced Hs Hr. unfold fon, func_on_networks.
    rewrite Hs. simpl. by rewrite Hr.
Qed.

(** X7.  A generated property is [set_wise_function] with the name of the set
    passed along: called without a name on a set that has one, the function
    returns the same Network before it is renamed. *)
Theorem property_renames_set_wise_function self cls (func : callable Array)
    (attribute : string) (n : string) (ntwk : Network) :
  constructed self cls ->
  func ∈ [npy_mean; npy_std] ->
  attribute ∈ network_property_names ->
  name self = Some n ->
  set_wise_function self func attribute None = Ok ntwk ->
  getattribute self (__name__ func ++ "_" ++ attribute) cls
  = (Ok (PyNetwork (Network_set_name ntwk n)), cls).
Proof.
  intros Hc Hf Ha Hn Hswf.
  destruct (constructed_inv _ _ Hc) as [_ Hcls].
  rewrite (getattribute_property self cls _ func attribute);
    [|rewrite <- Hcls; by apply reduction_property_bound].
  rewrite Hn. unfold set_wise_function, fon, func_on_networks in *.
  destruct (mapR (get_attribute attribute) (ntwk_set self)) as [stacked|];
    [|discriminate].
  simpl in *. destruct (getitem (ntwk_set self) 0) as [ntwk0|]; [|discriminate].
  simpl in *. destruct (copy ntwk0) as [new_ntwk|]; [|discriminate].
  simpl in *. destruct (call_axis0 func stacked) as [reduced|]; [|discriminate].
  simpl in *. by injection Hswf as <-.
Qed.

(** ** The archive constructor, case by case *)

(** X8.  [from_zip] propagates the failure to open the archive or to read one of
    its files, raises IndexError on an archive without entries, and
    otherwise hands the Networks of the entries, in listing order, to the
    constructor. *)
Theorem from_zip_outcome (zip_file_name : string) (a : args) (kw : kwargs) cls :
  (forall e, zipfile_ZipFile zip_file_name = Raise e ->
             from_zip zip_file_name a kw cls = (Raise e, cls))
  /\
  (forall z, zipfile_ZipFile zip_file_name = Ok z -> namelist z = [] ->
             from_zip zip_file_name a kw cls = (Raise IndexError, cls))
  /\
  (forall z e,
     zipfile_ZipFile zip_file_name = Ok z ->
     mapR (fun filename =>
             f <~ ZipFile_open z filename ;;
             ntwk <~ Network_open f ;;
             Ok (@PyNetwork Network Obj ntwk)) (namelist z) = Raise e ->
     from_zip zip_file_name a kw cls = (Raise e, cls))
  /\
  (forall z ntwks,
     zipfile_ZipFile zip_file_name = Ok z ->
     mapR (fun filename =>
             f <~ ZipFile_open z filename ;;
             ntwk <~ Network_open f ;;
             Ok (@PyNetwork Network Obj ntwk)) (namelist z) = Ok ntwks ->
     length ntwks = length (namelist z) /\
     from_zip zip_file_name a kw cls = __init__ ntwks None cls).
Proof.
  unfold from_zip, bindM, liftR. split; [|split; [|split]].
  - by intros e ->.
  - by intros z -> ->.
  - by intros z e -> ->.
  - intros z ntwks -> Hn. rewrite Hn. split; [|reflexivity].
    by apply mapR_length in Hn.
Qed.

(** ** inv *)

(** X9.  [inv] collects [ntwk.inv] of every member, in order, into a new set
    without a name; an exception of a member propagates. *)
Theorem inv_outcome self cls :
  constructed self cls ->
  (forall e, mapR get_inv (ntwk_set self) = Raise e -> inv self cls = (Raise e, cls))
  /\
  (forall out, mapR get_inv (ntwk_set self) = Ok out -> accepted out ->
               inv self cls = (Ok (PyNetworkSet out None), cls)).
Proof.
  intros Hc. unfold inv. split.
  - intros e He. unfold bindM at 1. unfold liftR. by rewrite He.
  - intros out Hout Hacc. unfold bindM at 1. unfold liftR. rewrite Hout.
    by apply (init_in_constructed_class out cls self).
Qed.

(** ** Operators between two sets, pair by pair *)

Lemma mapR_indexed_zip {A B C} (f : A -> B -> result C) (l1 : list A) (l2 : list B) :
  length l2 = length l1 ->
  mapR (fun k => x <~ getitem l1 k ;; y <~ getitem l2 k ;; f x y) (seq 0 (length l1))
  = mapR (fun xy => f xy.1 xy.2) (zip l1 l2).
Proof.
  revert l2; induction l1 as [|x l1 IH]; intros l2 Hlen; [reflexivity|].
  destruct l2 as [|y l2]; [discriminate|].
  injection Hlen as Hlen.
  change (zip (x :: l1) (y :: l2)) with ((x, y) :: zip l1 l2).
  change (length (x :: l1)) with (S (length l1)).
  rewrite <- cons_seq. cbn [mapR].
  rewrite <- (IH l2 Hlen), <- seq_shift, mapR_fmap. reflexivity.
Qed.

(** X10.  Between two sets of the same length an operator is the pairwise
    operation on the zipped member lists, left member as receiver, evaluated
    in order until one raises, followed by the construction of a set from the
    results. *)
Theorem operator_on_sets_is_pairwise (operator_name : string) self
    (other_ntwk_set : list (pyval Network Obj)) (other_name : option string) cls :
  length other_ntwk_set = length (ntwk_set self) ->
  operator_func operator_name self (PyNetworkSet other_ntwk_set other_name) cls
  = (out <- liftR (mapR (fun xy => call_method operator_name xy.1 [xy.2] [])
                        (zip (ntwk_set self) other_ntwk_set)) ;;
     new <- __init__ out None ;;
     retM (PyOfSet new)) cls.
Proof.
  intros Hlen. unfold operator_func, __len__, range.
  rewrite (proj2 (Nat.eqb_eq _ _) Hlen). simpl negb. cbv iota.
  by rewrite (mapR_indexed_zip (fun x y => call_method operator_name x [y] [])).
Qed.

(** ** getset *)

Lemma contains_empty (k : string) : contains "" k = true.
Proof. by destruct k. Qed.

Lemma prefix_app (s k : string) : String.prefix s k = true <-> exists post, k = s ++ post.
Proof.
  revert k; induction s as [|c s IH]; intros k.
  - split; [by exists k | by destruct k].
  - destruct k as [|c' k]; simpl; [split; [discriminate | by intros [post ?]]|].
    destruct (Ascii.ascii_dec c c') as [<-|Hne].
    + rewrite IH. split; intros [post Hpost]; exists post.
      * simpl. by rewrite Hpost.
      * simpl in Hpost. by injection Hpost.
    + split; [discriminate|]. intros [post Hpost]. simpl in Hpost.
      injection Hpost as Hc _. by destruct Hne.
Qed.

(** [contains s k] holds exactly when [s] occurs in [k]. *)
Lemma contains_spec (s k : string) :
  contains s k = true <-> exists pre post, k = pre ++ s ++ post.
Proof.
  induction k as [|c k IH]; cbn [contains].
  - rewrite orb_false_r, prefix_app. split.
    + intros [post Hpost]. by exists "", post.
    + intros (pre & post & Hk). destruct pre; [|discriminate].
      exists post. exact Hk.
  - rewrite orb_true_iff, prefix_app, IH. split.
    + intros [[post Hpost]|(pre & post & Hk)].
      * by exists "", post.
      * exists (String c pre), post. simpl. by rewrite Hk.
    + intros (pre & post & Hk). destruct pre as [|c' pre]; simpl in Hk.
      * left. by exists post.
      * right. injection Hk as _ Hk. by exists pre, post.
Qed.

Lemma dict_getitem_filtered (P : string -> bool) (d : list (string * pyval Network Obj)) :
  NoDup (map fst d) ->
  mapR (dict_getitem d) (List.filter P (map fst d))
  = Ok (map snd (List.filter (fun kv => P kv.1) d)).
Proof.
  induction d as [|[k v] d IH]; intros Hnd; [reflexivity|].
  simpl in Hnd. apply NoDup_cons in Hnd as [Hk Hnd].
  assert (Hrest : mapR (dict_getitem ((k, v) :: d)) (List.filter P (map fst d))
                  = Ok (map snd (List.filter (fun kv => P kv.1) d))).
  { rewrite <- (IH Hnd). apply mapR_ext_in. intros k' Hk'. simpl.
    destruct (String.eqb_spec k k') as [<-|Hne]; [|reflexivity].
    exfalso. apply Hk. apply list_elem_of_In in Hk'. apply filter_In in Hk' as [Hk' _].
    by apply list_elem_of_In. }
  simpl. destruct (P k); simpl; [|exact Hrest].
  rewrite String.eqb_refl. simpl. fold (dict_getitem (Network := Network) (Obj := Obj)).
  change (mapR (fun k0 => if String.eqb k k0 then Ok v else dict_getitem d k0)
               (List.filter P (map fst d)))
    with (mapR (dict_getitem ((k, v) :: d)) (List.filter P (map fst d))).
  by rewrite Hrest.
Qed.

(** X11.  [getset] picks the values whose key contains the substring, in the
    iteration order of the dictionary.  When no key matches it constructs
    nothing, prints the warning and returns [None]; otherwise it returns
    what the constructor makes of the picked values and the name. *)
Theorem getset_outcome (ntwk_dict : list (string * pyval Network Obj)) (s : string)
    nm cls :
  NoDup (map fst ntwk_dict) ->
  (values_with_key_containing s ntwk_dict = [] ->
   getset ntwk_dict s nm cls
   = (Ok (PyNone, Some ("Warning: No keys in ntwk_dict contain '" ++ s ++ "'")), cls))
  /\
  (values_with_key_containing s ntwk_dict <> [] ->
   getset ntwk_dict s nm cls
   = (new <- __init__ (values_with_key_containing s ntwk_dict) nm ;;
      retM (PyOfSet new, None)) cls)
  /\
  (accepted (values_with_key_containing s ntwk_dict) ->
   getset ntwk_dict s nm cls
   = (Ok (PyNetworkSet (values_with_key_containing s ntwk_dict) nm, None),
      populated cls)).
Proof.
  intros Hnd.
  assert (Hget : getset ntwk_dict s nm cls
                 = (if (0 <? length (values_with_key_containing s ntwk_dict))%nat
                    then (new <- __init__ (values_with_key_containing s ntwk_dict) nm ;;
                          retM (PyOfSet new, None))
                    else retM (PyNone,
                               Some ("Warning: No keys in ntwk_dict contain '"
                                     ++ s ++ "'"))) cls).
  { unfold getset. unfold bindM at 1. unfold liftR.
    by rewrite (dict_getitem_filtered (contains s) ntwk_dict Hnd). }
  rewrite Hget. split; [|split].
  - by intros ->.
  - intros Hne. destruct (values_with_key_containing s ntwk_dict); [done|reflexivity].
  - intros Hacc. pose proof Hacc as (n0 & rest & Hl & _). rewrite Hl. simpl.
    rewrite <- Hl. unfold bindM, retM. by rewrite (init_accepted _ nm cls Hacc).
Qed.

(** ** The triplet for an attribute without reduction properties *)

Lemma mean_name_generated (attribute : string) :
  "mean_" ++ attribute ∈ map fst (generated_members (Array := Array)) ->
  attribute ∈ network_property_names.
Proof.
  intros Hin.
  let names := eval vm_compute in (map fst (generated_members (Array := Array))) in
  change (map fst (generated_members (Array := Array))) with names in Hin.
  let name := eval cbv in ("mean_" ++ attribute) in
  change ("mean_" ++ attribute) with name in Hin.
  unfold network_property_names.
  repeat (apply elem_of_cons in Hin as [Hin|Hin];
          [first [ discriminate Hin
                 | injection Hin as ->; repeat constructor ]|]).
  by apply elem_of_nil in Hin.
Qed.

Lemma mean_name_not_in_class_body (attribute : string) :
  "mean_" ++ attribute ∉ class_body_methods.
Proof.
  unfold class_body_methods. intros Hin.
  let name := eval cbv in ("mean_" ++ attribute) in
  change ("mean_" ++ attribute) with name in Hin.
  repeat (apply elem_of_cons in Hin as [Hin|Hin]; [discriminate Hin|]).
  by apply elem_of_nil in Hin.
Qed.

(** X12.  Asked for an attribute that is neither one of the eleven listed names
    nor [s_db], on the class as a construction leaves it,
    [uncertainty_ntwk_triplet] raises AttributeError for
    [mean_<attribute>]: no such property exists. *)
Theorem uncertainty_ntwk_triplet_unknown_attribute self (attribute : string)
    (n_deviations : option Scalar) :
  attribute ∉ network_property_names ->
  attribute <> "s_db" ->
  uncertainty_ntwk_triplet self attribute n_deviations (populated at_class_definition)
  = (Raise (AttributeError ("mean_" ++ attribute)), populated at_class_definition).
Proof.
  intros Hnot Hdb.
  assert (Hnone : populated (at_class_definition : gmap string (member Array))
                    !! ("mean_" ++ attribute) = None).
  { rewrite other_names_untouched; [apply lookup_empty|].
    intros Hin. apply Hnot. by apply mean_name_generated. }
  generalize dependent (populated (at_class_definition : gmap string (member Array))).
  intros cls Hnone.
  unfold uncertainty_ntwk_triplet. unfold bindM at 1.
  assert (Hget : getattribute self ("mean_" ++ attribute) cls
                 = (Raise (AttributeError ("mean_" ++ attribute)), cls)).
  { unfold getattribute, getattribute_generated, bindM, class_lookup.
    rewrite Hnone. cbv beta iota.
    change (String.eqb ("mean_" ++ attribute) "mean_s_db")
      with (String.eqb attribute "s_db").
    rewrite (proj2 (String.eqb_neq attribute "s_db") Hdb).
    change (String.eqb ("mean_" ++ attribute) "std_s_db") with false.
    change (String.eqb ("mean_" ++ attribute) "inv") with false.
    change (String.eqb ("mean_" ++ attribute) "ntwk_set") with false.
    change (String.eqb ("mean_" ++ attribute) "name") with false.
    cbv beta iota. rewrite Hnone.
    rewrite bool_decide_eq_false_2 by apply mean_name_not_in_class_body.
    reflexivity. }
  by rewrite Hget.
Qed.

(** ** The standard deviation in dB *)


End MoreProperties.

(** ** The standard deviation in dB, over the reals *)

Section IdealDeviation.

Import Ideal.
Local Open Scope R_scope.





End IdealDeviation.

(** ** The further properties on the miniature collaborator *)

Lemma measurements_init :
  __init__ [PyNetwork Toy.ntwk_a; PyNetwork Toy.ntwk_b] (Some "set") at_class_definition
  = (Ok Toy.measurements, Toy.cls).
Proof. apply init_accepted. accept_collection. Defined.

Lemma len_and_items_after_init_witness :
  __len__ Toy.measurements = 2%nat /\
  __getitem__ Toy.measurements 1 = Ok (PyNetwork Toy.ntwk_b) /\
  __getitem__ Toy.measurements 2 = Raise IndexError.
Proof.
  destruct (len_and_items_after_init _ _ _ _ _ measurements_init)
    as (Hlen & _ & Hitem & Hpast).
  split; [exact Hlen|]. split; [by apply Hitem | apply Hpast; simpl; lia].
Defined.

Lemma class_body_members_survive_construction_witness :
  Toy.cls !! "uncertainty_ntwk_triplet" = None /\
  getattribute Toy.measurements "signature" Toy.cls = (Ok (PyMethod "signature"), Toy.cls).
Proof.
  destruct (class_body_members_survive_construction _ _ _ _ _ measurements_init)
    as [Hkept Hresolve].
  split.
  - rewrite Hkept; [reflexivity|]. left. unfold class_body_methods. repeat constructor.
  - destruct (Hresolve eq_refl) as (_ & _ & _ & Hmethod).
    apply Hmethod. unfold class_body_methods. repeat constructor.
Defined.

Lemma namespace_stable_after_construction_witness :
  (operator_func "__add__" Toy.measurements (PyOfSet Toy.measurements) Toy.cls).2 = Toy.cls /\
  (element_wise_method Toy.measurements "interpolate" [] [] Toy.cls).2 = Toy.cls.
Proof.
  destruct (namespace_stable_after_construction Toy.measurements Toy.cls
              measurements_constructed) as (_ & _ & Hop & Hew & _).
  split; [apply Hop | apply Hew].
Defined.

Lemma property_renames_set_wise_function_witness :
  getattribute Toy.measurements "std_s_mag" Toy.cls
  = (Ok (PyNetwork {| Toy.nports := 1; Toy.freq := [10; 20; 30];
                      Toy.s := [1; 1; 1]; Toy.label := Some "set" |}), Toy.cls).
Proof.
  change (getattribute Toy.measurements (__name__ npy_std ++ "_" ++ "s_mag") Toy.cls
          = (Ok (PyNetwork
                   (Network_set_name
                      {| Toy.nports := 1; Toy.freq := [10; 20; 30];
                         Toy.s := [1; 1; 1]; Toy.label := Some "a" |} "set")),
             Toy.cls)).
  apply (property_renames_set_wise_function Toy.measurements Toy.cls npy_std "s_mag"
           "set" {| Toy.nports := 1; Toy.freq := [10; 20; 30];
                    Toy.s := [1; 1; 1]; Toy.label := Some "a" |}).
  - exact measurements_constructed.
  - by right; left.
  - unfold network_property_names. repeat constructor.
  - reflexivity.
  - reflexivity.
Defined.

Lemma inv_outcome_witness :
  inv Toy.measurements Toy.cls
  = (Ok (PyNetworkSet [PyNetwork Toy.ntwk_a; PyNetwork Toy.ntwk_b] None), Toy.cls).
Proof.
  apply (proj2 (inv_outcome Toy.measurements Toy.cls measurements_constructed));
    [reflexivity | accept_collection].
Defined.

Lemma operator_on_sets_is_pairwise_witness :
  operator_func "__mul__" Toy.measurements
    (PyNetworkSet [PyNetwork Toy.ntwk_b; PyNetwork Toy.ntwk_a] (Some "other")) Toy.cls
  = (out <- liftR (mapR (fun xy => call_method "__mul__" xy.1 [xy.2] [])
                        (zip (ntwk_set Toy.measurements)
                             [PyNetwork Toy.ntwk_b; PyNetwork Toy.ntwk_a])) ;;
     new <- __init__ out None ;;
     retM (PyOfSet new)) Toy.cls.
Proof.
  apply (operator_on_sets_is_pairwise "__mul__" Toy.measurements
           [PyNetwork Toy.ntwk_b; PyNetwork Toy.ntwk_a] (Some "other") Toy.cls).
  reflexivity.
Defined.

Lemma getset_outcome_witness :
  getset [("a_5v", PyNetwork Toy.ntwk_a); ("b_5v", PyNetwork Toy.ntwk_b);
          ("c_10v", PyNetwork Toy.ntwk_c)] "5v" (Some "five") Toy.cls
  = (Ok (PyNetworkSet [PyNetwork Toy.ntwk_a; PyNetwork Toy.ntwk_b] (Some "five"), None),
     populated Toy.cls)
  /\
  getset [("a_5v", PyNetwork Toy.ntwk_a); ("b_5v", PyNetwork Toy.ntwk_b);
          ("c_10v", PyNetwork Toy.ntwk_c)] "99v" None Toy.cls
  = (Ok (PyNone, Some "Warning: No keys in ntwk_dict contain '99v'"), Toy.cls).
Proof.
  assert (Hnd : NoDup (map fst [("a_5v", @PyNetwork Toy.Network Toy.Duck Toy.ntwk_a);
                                ("b_5v", PyNetwork Toy.ntwk_b);
                                ("c_10v", PyNetwork Toy.ntwk_c)])).
  { simpl. repeat (apply NoDup_cons; split;
                   [intros Hin; repeat (apply elem_of_cons in Hin as [Hin|Hin];
                                        [discriminate Hin|]);
                    by apply elem_of_nil in Hin|]).
    apply NoDup_nil_2. }
  split.
  - apply (proj2 (proj2 (getset_outcome _ "5v" (Some "five") Toy.cls Hnd))).
    change (accepted [@PyNetwork Toy.Network Toy.Duck Toy.ntwk_a; PyNetwork Toy.ntwk_b]).
    accept_collection.
  - apply (proj1 (getset_outcome _ "99v" None Toy.cls Hnd)). reflexivity.
Defined.

Lemma uncertainty_ntwk_triplet_unknown_attribute_witness :
  uncertainty_ntwk_triplet Toy.measurements "s_smith" None (populated at_class_definition)
  = (Raise (AttributeError "mean_s_smith"), populated at_class_definition).
Proof.
  apply (uncertainty_ntwk_triplet_unknown_attribute Toy.measurements "s_smith" None).
  - unfold network_property_names. intros Hin.
    repeat (apply elem_of_cons in Hin as [Hin|Hin]; [discriminate Hin|]).
    by apply elem_of_nil in Hin.
  - discriminate.
Defined.
